(** * Multi_Language_Auto_Translator: the turn router, the registry and the
    conversation log of [multi_language_translator_auto.py]

    The Streamlit script is embedded shallowly:
    - a Python [str] is a [string] holding its UTF-8 bytes; the dict
      literals of the language configuration are [gmap]s keyed by [string];
    - [st.session_state] is a record with the one attribute the script
      uses, [history], which is absent until [init_history] has run;
    - the script's effects (Streamlit output, calls of the external
      services, exceptions, updates of the session state) live in a small
      state-and-exception monad [M]; the state survives a raised
      exception, as the Python heap does;
    - the external services (sound device, Whisper, Google Translate, gTTS,
      the clock) are fields of a record [World]: what each returns or raises
      is not decided by this script.

    One run of the page is [script]; the page configuration and the
    loading of the Whisper model (lines 14-28) come before it and are left
    out, as are the widgets themselves, whose values are the input
    [Widgets] of a run. Blocks of the page that the proofs address on their
    own have a name here: [decide_direction] (lines 221-233),
    [translate_and_speak] (lines 236-252), [turn] (lines 202-255) and
    [clear_history_clicked] (lines 196-197). *)

From Stdlib Require Import Ascii.
From stdpp Require Import base option list strings gmap fin_maps pretty.

(** ** Python values used by the script *)

Module Py.

(** The single-byte members of CPython's [_PyUnicode_IsWhitespace]:
    U+0009..U+000D, U+001C..U+001F and U+0020. *)
Definition is_ascii_space (c : ascii) : bool :=
  let n := N_of_ascii c in
  ((9 <=? n) && (n <=? 13) || (28 <=? n) && (n <=? 31) || (n =? 32))%N.

(** [byte_in lo hi c]: the byte [c] lies in the closed range [lo..hi]. *)
Definition byte_in (lo hi : N) (c : ascii) : bool :=
  let n := N_of_ascii c in ((lo <=? n) && (n <=? hi))%N.

(** The two-byte whitespace characters, U+0085 and U+00A0: lead byte C2. *)
Definition is_space2 (c1 c2 : ascii) : bool :=
  byte_in 194 194 c1 && (byte_in 133 133 c2 || byte_in 160 160 c2).

(** The three-byte whitespace characters: U+1680 (E1 9A 80),
    U+2000..U+200A (E2 80 80..8A), U+2028, U+2029 (E2 80 A8, A9),
    U+202F (E2 80 AF), U+205F (E2 81 9F) and U+3000 (E3 80 80). *)
Definition is_space3 (c1 c2 c3 : ascii) : bool :=
  byte_in 225 225 c1 && byte_in 154 154 c2 && byte_in 128 128 c3
  || byte_in 226 226 c1 && byte_in 128 128 c2
     && (byte_in 128 138 c3 || byte_in 168 169 c3 || byte_in 175 175 c3)
  || byte_in 226 226 c1 && byte_in 129 129 c2 && byte_in 159 159 c3
  || byte_in 227 227 c1 && byte_in 128 128 c2 && byte_in 128 128 c3.

(** [str.lstrip()]: drop the leading whitespace characters. *)
Fixpoint lstrip (s : string) : string :=
  match s with
  | String c1 r1 =>
      if is_ascii_space c1 then lstrip r1
      else match r1 with
           | String c2 r2 =>
               if is_space2 c1 c2 then lstrip r2
               else match r2 with
                    | String c3 r3 =>
                        if is_space3 c1 c2 c3 then lstrip r3 else s
                    | EmptyString => s
                    end
           | EmptyString => s
           end
  | EmptyString => s
  end.

(** The same on the reversed byte sequence, where the bytes of a
    multi-byte character come last byte first. *)
Fixpoint lstrip_rev (s : string) : string :=
  match s with
  | String c1 r1 =>
      if is_ascii_space c1 then lstrip_rev r1
      else match r1 with
           | String c2 r2 =>
               if is_space2 c2 c1 then lstrip_rev r2
               else match r2 with
                    | String c3 r3 =>
                        if is_space3 c3 c2 c1 then lstrip_rev r3 else s
                    | EmptyString => s
                    end
           | EmptyString => s
           end
  | EmptyString => s
  end.

(** [str.rstrip()] and [str.strip()]. *)
Definition rstrip (s : string) : string :=
  String.rev (lstrip_rev (String.rev s)).

Definition strip (s : string) : string := rstrip (lstrip s).

(** Truth value of a [str]: the empty string is false. *)
Definition truthy (s : string) : bool :=
  match s with EmptyString => false | String _ _ => true end.

(** [dict.get(key, dflt)]. *)
Definition get {V} (d : gmap string V) (key : string) (dflt : V) : V :=
  default dflt (d !! key).

(** [repr] of a [str] without quotes or backslashes in it, which is what
    [str(KeyError(key))] shows. *)
Definition repr (s : string) : string := "'" +:+ s +:+ "'".

End Py.

(** ** Language configuration (lines 35-68) *)

Definition LANGUAGE_PAIRS : gmap string (string * string) :=
  <["English ↔ Arabic" := ("en", "ar")]>
  (<["English ↔ Sinhala" := ("en", "si")]>
  (<["English ↔ Filipino (Tagalog)" := ("en", "tl")]>
  (<["English ↔ Hindi" := ("en", "hi")]> ∅))).

Definition LANG_FRIENDLY : gmap string string :=
  <["en" := "English"]>
  (<["ar" := "Arabic"]>
  (<["si" := "Sinhala"]>
  (<["tl" := "Filipino"]>
  (<["hi" := "Hindi"]> ∅)))).

Definition GTTS_MAP : gmap string string :=
  <["en" := "en"]>
  (<["ar" := "ar"]>
  (<["si" := "si"]>
  (<["tl" := "tl"]>
  (<["hi" := "hi"]> ∅)))).

Definition WHISPER_LANG_NORMALIZE : gmap string string :=
  <["en" := "en"]>
  (<["ar" := "ar"]>
  (<["si" := "si"]>
  (<["tl" := "tl"]>
  (<["fil" := "tl"]>
  (<["hi" := "hi"]> ∅))))).

(** Line 94: [WHISPER_LANG_NORMALIZE.get(lang_raw, lang_raw)]. *)
Definition normalize (lang_raw : string) : string :=
  Py.get WHISPER_LANG_NORMALIZE lang_raw lang_raw.

(** Line 250: [GTTS_MAP.get(tgt_lang, "en")]. *)
Definition tts_lang_code (tgt_lang : string) : string :=
  Py.get GTTS_MAP tgt_lang "en".

(** [LANG_FRIENDLY.get(code, code)] of [render_history]. *)
Definition friendly (code : string) : string :=
  Py.get LANG_FRIENDLY code code.

(** ** Session state, effects and exceptions *)

Module Turn.
(** The dict that [add_turn] appends (lines 121-128), one field per key. *)
Record t := mk {
  time : string;
  src_lang : string;
  tgt_lang : string;
  src_text : string;
  tgt_text : string;
  detected_raw : string;
}.
End Turn.

(** The exceptions that reach the [except Exception] handler of line 254:
    a failed subscript [d[key]], a missing attribute of
    [st.session_state], and whatever an external service raises, kept as
    its message. *)
Inductive Exn :=
  | KeyError (key : string)
  | AttributeError (name : string)
  | ServiceError (msg : string).

(** [str(e)], as line 255 formats it. The text for a missing session
    attribute is Streamlit's and is abbreviated here. *)
Definition str (e : Exn) : string :=
  match e with
  | KeyError key => Py.repr key
  | AttributeError name => "st.session_state has no attribute " +:+ name
  | ServiceError msg => msg
  end.

Inductive result (A : Type) :=
  | Ok (a : A)
  | Raise (e : Exn).
Arguments Ok {A} a.
Arguments Raise {A} e.

(** What the script does to the outside, in the order it does it: the
    Streamlit output calls, and the calls of the external services with
    the arguments they are given. *)
Inductive Event :=
  | st_title (body : string)
  | st_info (body : string)
  | st_error (body : string)
  | st_success (body : string)
  | st_write (body : string)
  | st_markdown (body : string)
  | st_audio (data format : string)
  | sd_rec (frames samplerate : Z)
  | model_transcribe (audio_path : string)
  | GoogleTranslator_translate (source target text : string)
  | gTTS_save (text lang : string).

(** The external services. Each field gives what the service returns, or
    raises, for the arguments of its call; [now] is
    [datetime.now().strftime("%H:%M:%S")]. Whisper's result is the dict
    [model.transcribe] returns, restricted to its string-valued keys. *)
Record World := {
  sounddevice : Z → Z → result string;
  whisper : string → result (gmap string string);
  translator : string → string → string → result string;
  gtts : string → string → result string;
  now : string;
}.

(** [history] is [st.session_state.history]: [None] while the attribute
    does not exist. [trace] is the list of events so far, oldest first. *)
Record State := {
  history : option (list Turn.t);
  trace : list Event;
}.

Definition M (A : Type) : Type := State → result A * State.

#[global] Instance M_ret : MRet M := λ A a s, (Ok a, s).

#[global] Instance M_bind : MBind M := λ A B f m s,
  match m s with
  | (Ok a, s') => f a s'
  | (Raise e, s') => (Raise e, s')
  end.

Definition raise {A} (e : Exn) : M A := λ s, (Raise e, s).

(** [try: body except Exception as e: handler e]. The handler starts from
    the state in which the exception was raised. *)
Definition try_except {A} (body : M A) (handler : Exn → M A) : M A := λ s,
  match body s with
  | (Ok a, s') => (Ok a, s')
  | (Raise e, s') => handler e s'
  end.

Definition emit (ev : Event) : M unit := λ s,
  (Ok tt, {| history := history s; trace := trace s ++ [ev] |}).

(** A call of an external service: the call is recorded, then it returns
    or raises. *)
Definition call {A} (ev : Event) (r : result A) : M A := λ s,
  (r, {| history := history s; trace := trace s ++ [ev] |}).

(** Reading and assigning [st.session_state.history]. *)
Definition get_history : M (list Turn.t) := λ s,
  match history s with
  | Some h => (Ok h, s)
  | None => (Raise (AttributeError "history"), s)
  end.

Definition set_history (h : list Turn.t) : M unit := λ s,
  (Ok tt, {| history := Some h; trace := trace s |}).

(** ["history" in st.session_state]. *)
Definition has_history : M bool := λ s,
  (Ok (bool_decide (is_Some (history s))), s).

(** The subscript [d[key]]. *)
Definition getitem {V} (d : gmap string V) (key : string) : M V :=
  match d !! key with
  | Some v => mret v
  | None => raise (KeyError key)
  end.

(** [for x in xs: body x]. *)
Fixpoint for_each {A} (xs : list A) (body : A → M unit) : M unit :=
  match xs with
  | [] => mret tt
  | x :: xs' => body x ;; for_each xs' body
  end.

(** ** Helper functions (lines 75-155) *)

Section Script.

Variable w : World.

(** [record_audio]: the recording, the wait for it and the writing of the
    temporary WAV file are one call of the sound device, which returns the
    file's name. *)
Definition record_audio (duration fs : Z) : M string :=
  emit (st_info ("Recording for " +:+ pretty duration
                 +:+ " seconds… Please speak.")) ;;
  call (sd_rec (duration * fs) fs) (sounddevice w (duration * fs) fs).

(** [transcribe_and_detect]: returns
    [(recognized_text, detected_lang_code_raw, normalized_lang_code)]. *)
Definition transcribe_and_detect (audio_path : string)
    : M (string * string * string) :=
  result ← call (model_transcribe audio_path) (whisper w audio_path);
  let text := Py.strip (Py.get result "text" "") in
  let lang_raw := Py.get result "language" "" in
  let lang_norm := normalize lang_raw in
  mret (text, lang_raw, lang_norm).

Definition translate_text (text src_lang tgt_lang : string) : M string :=
  call (GoogleTranslator_translate src_lang tgt_lang text)
       (translator w src_lang tgt_lang text).

Definition text_to_speech (text lang_code : string) : M string :=
  call (gTTS_save text lang_code) (gtts w text lang_code).

Definition init_history : M unit :=
  present ← has_history;
  if negb present then set_history [] else mret tt.

Definition add_turn (src_lang tgt_lang src_text tgt_text detected_raw : string)
    : M unit :=
  h ← get_history;
  set_history (h ++ [Turn.mk (now w) src_lang tgt_lang src_text tgt_text
                             detected_raw]).

(** The body of the loop of [render_history] (lines 140-155). *)
Definition render_turn (turn : Turn.t) : M unit :=
  let time := Turn.time turn in
  let src := Turn.src_lang turn in
  let tgt := Turn.tgt_lang turn in
  let src_text := Turn.src_text turn in
  let tgt_text := Turn.tgt_text turn in
  let detected_raw := Turn.detected_raw turn in
  emit (st_markdown ("**🧑 [" +:+ time +:+ "] (" +:+ friendly src +:+ ")**")) ;;
  emit (st_write src_text) ;;
  emit (st_markdown ("*Detected by Whisper as:* `" +:+ detected_raw
                     +:+ "` → normalized as `" +:+ src +:+ "`")) ;;
  emit (st_markdown ("**🤖 Translation (" +:+ friendly tgt +:+ ")**")) ;;
  emit (st_write tgt_text) ;;
  emit (st_markdown "---").

(** [render_history]: nothing is shown for a missing or empty history;
    otherwise the turns of [history[::-1]] are shown one after the other. *)
Definition render_history : M unit :=
  present ← has_history;
  if negb present then mret tt
  else
    h ← get_history;
    if bool_decide (h = []) then mret tt
    else
      emit (st_markdown "### 🕑 Conversation History") ;;
      for_each (reverse h) render_turn.

(** ** The page (lines 162-257) *)

(** The values the widgets return in one run of the script: the label
    chosen in the select box, the slider's value and the two buttons. *)
Record Widgets := {
  pair_label : string;
  duration : Z;
  start : bool;
  clear_history : bool;
}.

(** Lines 221-233: the direction from the detected language. The two
    variables hold a language code, or [None] after the error message. *)
Definition decide_direction
    (lang_a lang_b lang_a_name lang_b_name detected_norm : string)
    : M (option string * option string) :=
  if bool_decide (detected_norm = lang_a) then
    mret (Some lang_a, Some lang_b)
  else if bool_decide (detected_norm = lang_b) then
    mret (Some lang_b, Some lang_a)
  else
    emit (st_error ("Detected language `" +:+ detected_norm
                    +:+ "` is not part of the selected pair ("
                    +:+ lang_a_name +:+ " ↔ " +:+ lang_b_name
                    +:+ "). Please speak in one of those languages.")) ;;
    mret (None, None).

(** Lines 236-252: translate, log the turn, speak. *)
Definition translate_and_speak
    (src_lang tgt_lang recognized_text detected_raw : string) : M unit :=
  src_name ← getitem LANG_FRIENDLY src_lang;
  tgt_name ← getitem LANG_FRIENDLY tgt_lang;
  emit (st_info ("Translating from " +:+ src_name +:+ " to " +:+ tgt_name
                 +:+ "...")) ;;
  translated ← translate_text recognized_text src_lang tgt_lang;
  tgt_name' ← getitem LANG_FRIENDLY tgt_lang;
  emit (st_success ("Translation (" +:+ tgt_name' +:+ "):")) ;;
  emit (st_write translated) ;;
  add_turn src_lang tgt_lang recognized_text translated detected_raw ;;
  emit (st_info "Generating voice output...") ;;
  let tts_lang_code := tts_lang_code tgt_lang in
  mp3_path ← text_to_speech translated tts_lang_code;
  emit (st_audio mp3_path "audio/mp3").

(** Lines 202-255: the [try] block run when the start button was pressed,
    with its handler. [if src_lang and tgt_lang] holds when both variables
    are non-empty strings. *)
Definition turn
    (lang_a lang_b lang_a_name lang_b_name : string) (duration : Z)
    : M unit :=
  try_except
    (audio_path ← record_audio duration 16000;
     emit (st_audio audio_path "audio/wav") ;;
     emit (st_info "Transcribing and detecting language...") ;;
     '(recognized_text, detected_raw, detected_norm) ←
       transcribe_and_detect audio_path;
     if negb (Py.truthy recognized_text) then
       emit (st_error "Could not detect any speech. Please try again.")
     else
       emit (st_success "Recognized Speech:") ;;
       emit (st_write recognized_text) ;;
       emit (st_markdown ("*Whisper detected language:* `" +:+ detected_raw
                          +:+ "` → normalized: `" +:+ detected_norm
                          +:+ "`")) ;;
       '(src_lang, tgt_lang) ←
         decide_direction lang_a lang_b lang_a_name lang_b_name
                          detected_norm;
       match src_lang, tgt_lang with
       | Some src_lang, Some tgt_lang =>
           if Py.truthy src_lang && Py.truthy tgt_lang then
             translate_and_speak src_lang tgt_lang recognized_text
                                 detected_raw
           else mret tt
       | _, _ => mret tt
       end)
    (λ e, emit (st_error ("Error: " +:+ str e))).

(** Lines 195-197: the handler of the clear button. *)
Definition clear_history_clicked : M unit :=
  set_history [] ;;
  emit (st_success "Conversation history cleared.").

(** One run of the script, top to bottom, for the given widget values. *)
Definition script (ui : Widgets) : M unit :=
  init_history ;;
  emit (st_title "🌏 Smart Multi-Language Voice Translator") ;;
  emit (st_write ("Auto-detects whether you speak English, Arabic, "
                  +:+ "Sinhala, Filipino, or Hindi, "
                  +:+ "and translates to the other language in the "
                  +:+ "selected pair. "
                  +:+ "Perfect for back-and-forth conversations.")) ;;
  emit (st_markdown "---") ;;
  '(lang_a, lang_b) ← getitem LANGUAGE_PAIRS (pair_label ui);
  lang_a_name ← getitem LANG_FRIENDLY lang_a;
  lang_b_name ← getitem LANG_FRIENDLY lang_b;
  emit (st_info ("Auto Conversation Mode: Speak either **" +:+ lang_a_name
                 +:+ "** or **" +:+ lang_b_name +:+ "**.

"
                 +:+ "If you speak " +:+ lang_a_name
                 +:+ ", it translates to " +:+ lang_b_name +:+ ".
"
                 +:+ "If you speak " +:+ lang_b_name
                 +:+ ", it translates to " +:+ lang_a_name +:+ ".")) ;;
  (if clear_history ui then clear_history_clicked else mret tt) ;;
  emit (st_markdown "---") ;;
  (if start ui then turn lang_a lang_b lang_a_name lang_b_name (duration ui)
   else mret tt) ;;
  render_history.

End Script.

(** * Vocabulary of the statements *)

(** A code is known to the registry when each per-language table has it. *)
Definition in_registry (code : string) : Prop :=
  is_Some (LANG_FRIENDLY !! code) ∧ is_Some (GTTS_MAP !! code)
  ∧ is_Some (WHISPER_LANG_NORMALIZE !! code).

(** ** The output of one turn, stage by stage *)

(** Recording and transcription (lines 204-209). *)
Definition recording_events (duration : Z) (audio_path : string)
    : list Event :=
  [ st_info ("Recording for " +:+ pretty duration
             +:+ " seconds… Please speak.");
    sd_rec (duration * 16000) 16000;
    st_audio audio_path "audio/wav";
    st_info "Transcribing and detecting language...";
    model_transcribe audio_path ].

(** The recognised speech and its language (lines 214-218). *)
Definition recognized_events (recognized_text detected_raw : string)
    : list Event :=
  [ st_success "Recognized Speech:";
    st_write recognized_text;
    st_markdown ("*Whisper detected language:* `" +:+ detected_raw
                 +:+ "` → normalized: `" +:+ normalize detected_raw
                 +:+ "`") ].

(** The message shown for a language outside the pair (lines 228-231). *)
Definition not_in_pair (detected_norm lang_a_name lang_b_name : string)
    : Event :=
  st_error ("Detected language `" +:+ detected_norm
            +:+ "` is not part of the selected pair ("
            +:+ lang_a_name +:+ " ↔ " +:+ lang_b_name
            +:+ "). Please speak in one of those languages.").

(** The call of the translation service (lines 237-240). *)
Definition translating_events (src_lang tgt_lang recognized_text : string)
    : list Event :=
  [ st_info ("Translating from " +:+ friendly src_lang +:+ " to "
             +:+ friendly tgt_lang +:+ "...");
    GoogleTranslator_translate src_lang tgt_lang recognized_text ].

(** The translation shown (lines 242-243). *)
Definition translated_events (tgt_lang translated : string) : list Event :=
  [ st_success ("Translation (" +:+ friendly tgt_lang +:+ "):");
    st_write translated ].

(** The call of the speech synthesis (lines 249-251). *)
Definition speaking_events (tgt_lang translated : string) : list Event :=
  [ st_info "Generating voice output...";
    gTTS_save translated (tts_lang_code tgt_lang) ].

(** What [render_history] shows for one turn (lines 147-155). *)
Definition turn_events (turn : Turn.t) : list Event :=
  [ st_markdown ("**🧑 [" +:+ Turn.time turn +:+ "] ("
                 +:+ friendly (Turn.src_lang turn) +:+ ")**");
    st_write (Turn.src_text turn);
    st_markdown ("*Detected by Whisper as:* `" +:+ Turn.detected_raw turn
                 +:+ "` → normalized as `" +:+ Turn.src_lang turn +:+ "`");
    st_markdown ("**🤖 Translation (" +:+ friendly (Turn.tgt_lang turn)
                 +:+ ")**");
    st_write (Turn.tgt_text turn);
    st_markdown "---" ].

(** What [render_history] shows for a history with turns in it. *)
Definition history_events (h : list Turn.t) : list Event :=
  st_markdown "### 🕑 Conversation History"
  :: concat (turn_events <$> reverse h).

(** The head of the page (lines 164-187), for the names of the pair. *)
Definition page_events (lang_a_name lang_b_name : string) : list Event :=
  [ st_title "🌏 Smart Multi-Language Voice Translator";
    st_write ("Auto-detects whether you speak English, Arabic, "
              +:+ "Sinhala, Filipino, or Hindi, "
              +:+ "and translates to the other language in the "
              +:+ "selected pair. "
              +:+ "Perfect for back-and-forth conversations.");
    st_markdown "---";
    st_info ("Auto Conversation Mode: Speak either **" +:+ lang_a_name
             +:+ "** or **" +:+ lang_b_name +:+ "**.

"
             +:+ "If you speak " +:+ lang_a_name
             +:+ ", it translates to " +:+ lang_b_name +:+ ".
"
             +:+ "If you speak " +:+ lang_b_name
             +:+ ", it translates to " +:+ lang_a_name +:+ ".") ].

(** The message of the handler of line 255. *)
Definition reported (e : Exn) : Event := st_error ("Error: " +:+ str e).

(** The state with the same history and more output. *)
Definition shown (s : State) (events : list Event) : State :=
  {| history := history s; trace := trace s ++ events |}.

(** The number of turns in the history. *)
Definition log_length (s : State) : nat := length (default [] (history s)).

(** The state after [turn] has been logged, with more output. *)
Definition logged (s : State) (h : list Turn.t) (turn : Turn.t)
    (events : list Event) : State :=
  {| history := Some (h ++ [turn]); trace := trace s ++ events |}.

(** ** Sample runs *)

(** A session in which [init_history] has run and nothing was logged. *)
Definition fresh : State := {| history := Some []; trace := [] |}.

(** Hindi is spoken; the translation arrives, the speech synthesis is
    out of reach. *)
Definition hindi_world : World := {|
  sounddevice := λ _ _, Ok "/tmp/tmp3k9x.wav";
  whisper := λ _, Ok (<["text" := " नमस्ते"]> (<["language" := "hi"]> ∅));
  translator := λ _ _ _, Ok "Hello";
  gtts := λ _ _, Raise (ServiceError "Failed to connect");
  now := "10:15:00";
|}.

(** French is spoken. *)
Definition french_world : World := {|
  sounddevice := λ _ _, Ok "/tmp/tmp7q2m.wav";
  whisper := λ _, Ok (<["text" := " Bonjour tout le monde."]>
                      (<["language" := "fr"]> ∅));
  translator := λ _ _ _, Ok "Hello everyone.";
  gtts := λ _ _, Ok "/tmp/tmp7q2m.mp3";
  now := "10:16:00";
|}.

(** English is spoken; the translation service is out of reach. *)
Definition offline_world : World := {|
  sounddevice := λ _ _, Ok "/tmp/tmp1c8d.wav";
  whisper := λ _, Ok (<["text" := " Good morning."]>
                      (<["language" := "en"]> ∅));
  translator := λ _ _ _, Raise (ServiceError "Request exception");
  gtts := λ _ _, Ok "/tmp/tmp1c8d.mp3";
  now := "10:17:00";
|}.

(** Filipino is spoken and tagged [fil]; both services answer. *)
Definition filipino_world : World := {|
  sounddevice := λ _ _, Ok "/tmp/tmp5v0z.wav";
  whisper := λ _, Ok (<["text" := " Kumusta ka? "]>
                      (<["language" := "fil"]> ∅));
  translator := λ _ _ _, Ok "How are you?";
  gtts := λ _ _, Ok "/tmp/tmp5v0z.mp3";
  now := "10:18:00";
|}.

(** Three logged turns, oldest first. *)
Definition hello_turn : Turn.t :=
  Turn.mk "09:00:01" "en" "hi" "Hello" "नमस्ते" "en".
Definition thanks_turn : Turn.t :=
  Turn.mk "09:00:20" "hi" "en" "धन्यवाद" "Thank you" "hi".
Definition goodbye_turn : Turn.t :=
  Turn.mk "09:00:41" "en" "hi" "Goodbye" "अलविदा" "en".

Definition three_turns : State :=
  {| history := Some [hello_turn; thanks_turn; goodbye_turn]; trace := [] |}.

(** The widget values of a run started by one of the two buttons. *)
Definition start_pressed (label : string) : Widgets :=
  {| pair_label := label; duration := 5; start := true;
     clear_history := false |}.

Definition clear_pressed (label : string) : Widgets :=
  {| pair_label := label; duration := 5; start := false;
     clear_history := true |}.

(** ** The ways a turn can end *)

Section Turn_end.

Context (w : World) (lang_a lang_b lang_a_name lang_b_name : string).
Context (duration : Z) (s : State).

(** The ways lines 235-252 can end once the direction is decided: a
    direction with an empty code, for which line 235 skips the rest; a code
    without display name; the translation fails; no history to append to;
    the speech synthesis fails; the turn is logged and spoken. *)
Inductive directed_end
    (audio_path recognized_text detected_raw src_lang tgt_lang : string)
    : State → Prop :=
  | end_skipped :
      src_lang = "" ∨ tgt_lang = "" →
      directed_end audio_path recognized_text detected_raw src_lang tgt_lang
        (shown s (recording_events duration audio_path
                  ++ recognized_events recognized_text detected_raw))
  | end_unnamed (code : string) :
      src_lang ≠ "" →
      tgt_lang ≠ "" →
      LANG_FRIENDLY !! code = None →
      code = src_lang ∨ code = tgt_lang →
      directed_end audio_path recognized_text detected_raw src_lang tgt_lang
        (shown s (recording_events duration audio_path
                  ++ recognized_events recognized_text detected_raw
                  ++ [reported (KeyError code)]))
  | end_untranslated (e : Exn) :
      src_lang ≠ "" →
      tgt_lang ≠ "" →
      is_Some (LANG_FRIENDLY !! src_lang) →
      is_Some (LANG_FRIENDLY !! tgt_lang) →
      translator w src_lang tgt_lang recognized_text = Raise e →
      directed_end audio_path recognized_text detected_raw src_lang tgt_lang
        (shown s (recording_events duration audio_path
                  ++ recognized_events recognized_text detected_raw
                  ++ translating_events src_lang tgt_lang recognized_text
                  ++ [reported e]))
  | end_no_history (translated : string) :
      src_lang ≠ "" →
      tgt_lang ≠ "" →
      is_Some (LANG_FRIENDLY !! src_lang) →
      is_Some (LANG_FRIENDLY !! tgt_lang) →
      translator w src_lang tgt_lang recognized_text = Ok translated →
      history s = None →
      directed_end audio_path recognized_text detected_raw src_lang tgt_lang
        (shown s (recording_events duration audio_path
                  ++ recognized_events recognized_text detected_raw
                  ++ translating_events src_lang tgt_lang recognized_text
                  ++ translated_events tgt_lang translated
                  ++ [reported (AttributeError "history")]))
  | end_unspoken (translated : string) (h : list Turn.t) (e : Exn) :
      src_lang ≠ "" →
      tgt_lang ≠ "" →
      is_Some (LANG_FRIENDLY !! src_lang) →
      is_Some (LANG_FRIENDLY !! tgt_lang) →
      translator w src_lang tgt_lang recognized_text = Ok translated →
      history s = Some h →
      gtts w translated (tts_lang_code tgt_lang) = Raise e →
      directed_end audio_path recognized_text detected_raw src_lang tgt_lang
        (logged s h (Turn.mk (now w) src_lang tgt_lang recognized_text
                             translated detected_raw)
           (recording_events duration audio_path
            ++ recognized_events recognized_text detected_raw
            ++ translating_events src_lang tgt_lang recognized_text
            ++ translated_events tgt_lang translated
            ++ speaking_events tgt_lang translated
            ++ [reported e]))
  | end_spoken (translated : string) (h : list Turn.t) (mp3_path : string) :
      src_lang ≠ "" →
      tgt_lang ≠ "" →
      is_Some (LANG_FRIENDLY !! src_lang) →
      is_Some (LANG_FRIENDLY !! tgt_lang) →
      translator w src_lang tgt_lang recognized_text = Ok translated →
      history s = Some h →
      gtts w translated (tts_lang_code tgt_lang) = Ok mp3_path →
      directed_end audio_path recognized_text detected_raw src_lang tgt_lang
        (logged s h (Turn.mk (now w) src_lang tgt_lang recognized_text
                             translated detected_raw)
           (recording_events duration audio_path
            ++ recognized_events recognized_text detected_raw
            ++ translating_events src_lang tgt_lang recognized_text
            ++ translated_events tgt_lang translated
            ++ speaking_events tgt_lang translated
            ++ [st_audio mp3_path "audio/mp3"])).

(** The ways lines 211-252 can end once Whisper has returned the text and
    the raw tag: no speech; a language outside the pair; a direction. *)
Inductive heard_end (audio_path recognized_text detected_raw : string)
    : State → Prop :=
  | end_no_speech :
      recognized_text = "" →
      heard_end audio_path recognized_text detected_raw
        (shown s (recording_events duration audio_path
                  ++ [st_error
                        "Could not detect any speech. Please try again."]))
  | end_rejected :
      recognized_text ≠ "" →
      normalize detected_raw ≠ lang_a →
      normalize detected_raw ≠ lang_b →
      heard_end audio_path recognized_text detected_raw
        (shown s (recording_events duration audio_path
                  ++ recognized_events recognized_text detected_raw
                  ++ [not_in_pair (normalize detected_raw) lang_a_name
                                  lang_b_name]))
  | end_directed (src_lang tgt_lang : string) (s' : State) :
      recognized_text ≠ "" →
      normalize detected_raw = src_lang →
      (src_lang, tgt_lang) = (lang_a, lang_b)
      ∨ (src_lang, tgt_lang) = (lang_b, lang_a) →
      directed_end audio_path recognized_text detected_raw src_lang tgt_lang
                   s' →
      heard_end audio_path recognized_text detected_raw s'.

(** The states in which the [try] block of lines 202-255 and its handler
    can leave the session, each with the answers of the services that lead
    to it: the recording fails; the transcription fails; Whisper has
    returned. *)
Inductive turn_end : State → Prop :=
  | end_no_recording (e : Exn) :
      sounddevice w (duration * 16000) 16000 = Raise e →
      turn_end (shown s [ st_info ("Recording for " +:+ pretty duration
                                   +:+ " seconds… Please speak.");
                          sd_rec (duration * 16000) 16000;
                          reported e ])
  | end_no_transcript (audio_path : string) (e : Exn) :
      sounddevice w (duration * 16000) 16000 = Ok audio_path →
      whisper w audio_path = Raise e →
      turn_end (shown s (recording_events duration audio_path
                         ++ [reported e]))
  | end_heard (audio_path : string) (res : gmap string string)
        (s' : State) :
      sounddevice w (duration * 16000) 16000 = Ok audio_path →
      whisper w audio_path = Ok res →
      heard_end audio_path (Py.strip (Py.get res "text" ""))
                (Py.get res "language" "") s' →
      turn_end s'.

End Turn_end.

(** ** Whole runs and sessions *)

(** The events a computation has added to the output of [s]. *)
Definition new_events (s s' : State) : list Event :=
  drop (length (trace s)) (trace s').

(** What [render_history] shows for the state it is called in. *)
Definition log_events (s : State) : list Event :=
  match history s with
  | Some (turn :: h) => history_events (turn :: h)
  | _ => []
  end.

(** A session: Streamlit runs the script once per interaction, each run
    with the widget values and the services of its moment, on the session
    state the run before has left. *)
Definition session (runs : list (World * Widgets)) : M unit :=
  for_each runs (λ run, script run.1 run.2).

(** The number of runs of a session started by the start button. *)
Definition starts (runs : list (World * Widgets)) : nat :=
  length (filter (λ run, start run.2 = true) runs).

(** No sound device. *)
Definition no_microphone_world : World := {|
  sounddevice := λ _ _, Raise (ServiceError "Error querying device -1");
  whisper := λ _, Ok ∅;
  translator := λ _ _ _, Ok "";
  gtts := λ _ _, Ok "";
  now := "10:19:00";
|}.

(** The recording is there, the model fails on it. *)
Definition no_model_world : World := {|
  sounddevice := λ _ _, Ok "/tmp/tmp9h4b.wav";
  whisper := λ _, Raise (ServiceError "Failed to load audio");
  translator := λ _ _ _, Ok "";
  gtts := λ _ _, Ok "";
  now := "10:20:00";
|}.

(** Nobody speaks: Whisper returns blank text, tagged as English. *)
Definition silent_world : World := {|
  sounddevice := λ _ _, Ok "/tmp/tmp2r6e.wav";
  whisper := λ _, Ok (<["text" := "  "]> (<["language" := "en"]> ∅));
  translator := λ _ _ _, Ok "";
  gtts := λ _ _, Ok "";
  now := "10:21:00";
|}.

(** A conversation of four runs in the pair English-Hindi: a rerun without
    a button, Hindi spoken, French spoken, Hindi spoken again. *)
Definition idle (label : string) : Widgets :=
  {| pair_label := label; duration := 7; start := false;
     clear_history := false |}.

Definition conversation : list (World * Widgets) :=
  [ (offline_world, idle "English ↔ Hindi");
    (hindi_world, start_pressed "English ↔ Hindi");
    (french_world, start_pressed "English ↔ Hindi");
    (hindi_world, start_pressed "English ↔ Hindi") ].

(** Lookups in the dict literals, one key after the other. *)
Ltac lookup_literal :=
  rewrite ?lookup_insert, ?lookup_empty;
  repeat (case_decide; simplify_eq /=); try done.

(** * Properties *)

(** ** The language registry *)

(** The normalisation table changes one tag only. *)
Lemma normalize_spec (lang_raw : string) :
  normalize lang_raw = if bool_decide (lang_raw = "fil") then "tl" else lang_raw.
Proof.
  unfold normalize, Py.get, WHISPER_LANG_NORMALIZE.
  case_bool_decide as Hfil; [by subst|].
  by lookup_literal.
Qed.


Lemma configured_pair (label a b : string) :
  LANGUAGE_PAIRS !! label = Some (a, b) →
  a = "en" ∧ b ∈ ["ar"; "si"; "tl"; "hi"].
Proof.
  unfold LANGUAGE_PAIRS. rewrite !elem_of_cons, elem_of_nil.
  lookup_literal; naive_solver.
Qed.

Lemma in_registry_codes (code : string) :
  code ∈ ["en"; "ar"; "si"; "tl"; "hi"] → in_registry code.
Proof.
  rewrite !elem_of_cons, elem_of_nil. intros Hin.
  destruct_or!; subst; [repeat split; eexists; reflexivity..|done].
Qed.

(** C8. The registry has four pairs; the two codes of each pair differ, and
    each of them is a key of the display-name table, of the gTTS table and
    of the Whisper normalisation table. *)
Theorem language_pairs_wellformed :
  size LANGUAGE_PAIRS = 4
  ∧ map_Forall (λ _ pair, pair.1 ≠ pair.2
                          ∧ in_registry pair.1 ∧ in_registry pair.2)
               LANGUAGE_PAIRS.
Proof.
  split; [reflexivity|].
  intros label [a b] Hpair. apply configured_pair in Hpair as [-> Hb].
  simpl. split_and!.
  - intros <-. revert Hb. rewrite !elem_of_cons, elem_of_nil.
    intros Hb. by destruct_or!.
  - apply in_registry_codes, list_elem_of_here.
  - apply in_registry_codes, list_elem_of_further, Hb.
Qed.

(** C2. Normalisation is defined on every string: a key of the table
    yields its entry, ["fil"] yields ["tl"], any other string yields
    itself; and [transcribe_and_detect] returns, with the normalised tag,
    whenever Whisper returns. *)
Theorem normalize_total (lang_raw : string) :
  normalize lang_raw
    = match WHISPER_LANG_NORMALIZE !! lang_raw with
      | Some code => code
      | None => lang_raw
      end
  ∧ normalize "fil" = "tl"
  ∧ ∀ (w : World) (audio_path : string) (s : State),
      match whisper w audio_path with
      | Ok res =>
          (transcribe_and_detect w audio_path s).1
          = Ok (Py.strip (Py.get res "text" ""),
                Py.get res "language" "",
                normalize (Py.get res "language" ""))
      | Raise e => (transcribe_and_detect w audio_path s).1 = Raise e
      end.
Proof.
  split_and!.
  - unfold normalize, Py.get. by destruct (_ !! _).
  - reflexivity.
  - intros w audio_path s.
    unfold transcribe_and_detect, call, mbind, M_bind, mret, M_ret. simpl.
    destruct (whisper w audio_path); reflexivity.
Qed.

(** C9. Normalising twice is normalising once: the values of the table
    are fixed points of the normalisation. *)
Theorem normalize_idempotent (lang_raw : string) :
  normalize (normalize lang_raw) = normalize lang_raw
  ∧ map_Forall (λ _ code, normalize code = code) WHISPER_LANG_NORMALIZE.
Proof.
  split.
  - rewrite (normalize_spec lang_raw).
    case_bool_decide as Hfil; [reflexivity|].
    rewrite normalize_spec. by rewrite bool_decide_eq_false_2.
  - intros key code Hcode. rewrite normalize_spec.
    case_bool_decide as Hfil; [|done]. subst code.
    revert Hcode. unfold WHISPER_LANG_NORMALIZE. by lookup_literal.
Qed.

Lemma friendly_key_truthy (code name : string) :
  LANG_FRIENDLY !! code = Some name → Py.truthy code = true.
Proof. unfold LANG_FRIENDLY. by lookup_literal. Qed.

Lemma configured_pair_names (label a b : string) :
  LANGUAGE_PAIRS !! label = Some (a, b) →
  a ≠ b ∧ is_Some (LANG_FRIENDLY !! a) ∧ is_Some (LANG_FRIENDLY !! b).
Proof.
  intros Hpair. apply configured_pair in Hpair as [-> Hb].
  assert (in_registry b) as (Hname & _).
  { apply in_registry_codes, list_elem_of_further, Hb. }
  split_and!; [|by eexists|done].
  intros <-. revert Hb. rewrite !elem_of_cons, elem_of_nil.
  intros Hb. by destruct_or!.
Qed.

(** ** The monad *)

Lemma run_bind {A B} (m : M A) (f : A → M B) (s : State) :
  (m ≫= f) s
  = match m s with
    | (Ok a, s') => f a s'
    | (Raise e, s') => (Raise e, s')
    end.
Proof. reflexivity. Qed.

Lemma run_for_each {A} (xs : list A) (body : A → M unit)
    (events : A → list Event) (s : State) :
  (∀ x s0, body x s0
           = (Ok tt, {| history := history s0;
                        trace := trace s0 ++ events x |})) →
  for_each xs body s
  = (Ok tt, {| history := history s;
               trace := trace s ++ concat (events <$> xs) |}).
Proof.
  intros Hbody. revert s. induction xs as [|x xs IH]; intros s.
  - simpl. rewrite app_nil_r. by destruct s.
  - simpl. rewrite run_bind, Hbody, IH. simpl. by rewrite <- app_assoc.
Qed.

(** ** The direction of a turn *)

(** C1. For a pair of two different codes and any raw tag, the direction
    decision yields source [lang_a] and target [lang_b] exactly when the
    normalised tag is [lang_a], source [lang_b] and target [lang_a] exactly
    when it is [lang_b], and otherwise reports the language as outside the
    pair and yields no direction; one and only one of the three happens,
    and a direction is decided without any output. *)
Theorem decide_direction_three_way
    (lang_a lang_b lang_a_name lang_b_name lang_raw : string) (s : State) :
  lang_a ≠ lang_b →
  let detected_norm := normalize lang_raw in
  let run :=
    decide_direction lang_a lang_b lang_a_name lang_b_name detected_norm s in
  (detected_norm = lang_a ∧ detected_norm ≠ lang_b
     ∧ run = (Ok (Some lang_a, Some lang_b), s))
  ∨ (detected_norm = lang_b ∧ detected_norm ≠ lang_a
     ∧ run = (Ok (Some lang_b, Some lang_a), s))
  ∨ (detected_norm ≠ lang_a ∧ detected_norm ≠ lang_b
     ∧ run = (Ok (None, None),
              shown s [not_in_pair detected_norm lang_a_name lang_b_name])).
Proof.
  intros Hab detected_norm run. subst run. unfold decide_direction.
  destruct (decide (detected_norm = lang_a)) as [Ha|Ha].
  - left. rewrite bool_decide_eq_true_2 by done.
    split_and!; [done|congruence|done].
  - rewrite (bool_decide_eq_false_2 _ Ha). right.
    destruct (decide (detected_norm = lang_b)) as [Hb|Hb].
    + left. rewrite bool_decide_eq_true_2 by done. done.
    + right. rewrite bool_decide_eq_false_2 by done. done.
Qed.

(** ** One turn *)

(** Bring the output of a run into the shape of the statements. *)
Ltac tidy_state :=
  unfold emit, shown, logged, recording_events, recognized_events,
    translating_events, translated_events, speaking_events, reported;
  simpl; rewrite <- ?app_assoc; simpl.

Lemma friendly_name (code name : string) :
  LANG_FRIENDLY !! code = Some name → friendly code = name.
Proof. intros Hname. unfold friendly, Py.get. by rewrite Hname. Qed.

Lemma truthy_empty (text : string) : Py.truthy text = false ↔ text = "".
Proof. by destruct text. Qed.

Section One_turn.

Context (w : World).

(** [add_turn] puts the new turn after the turns already logged. *)
Lemma add_turn_run (src_lang tgt_lang src_text tgt_text detected_raw : string)
    (s : State) (h : list Turn.t) :
  history s = Some h →
  add_turn w src_lang tgt_lang src_text tgt_text detected_raw s
  = (Ok tt, logged s h (Turn.mk (now w) src_lang tgt_lang src_text tgt_text
                                detected_raw) []).
Proof.
  intros Hh. unfold add_turn, get_history, set_history, logged.
  rewrite run_bind, Hh. by rewrite app_nil_r.
Qed.

(** Lines 236-252 for two codes of the display-name table: what the
    translation service and the speech synthesis return decides the rest. *)
Lemma translate_and_speak_run
    (src_lang tgt_lang recognized_text detected_raw : string)
    (s : State) (h : list Turn.t) :
  is_Some (LANG_FRIENDLY !! src_lang) →
  is_Some (LANG_FRIENDLY !! tgt_lang) →
  history s = Some h →
  let asked := translating_events src_lang tgt_lang recognized_text in
  translate_and_speak w src_lang tgt_lang recognized_text detected_raw s
  = match translator w src_lang tgt_lang recognized_text with
    | Raise e => (Raise e, shown s asked)
    | Ok translated =>
        let turn := Turn.mk (now w) src_lang tgt_lang recognized_text
                            translated detected_raw in
        let said := asked ++ translated_events tgt_lang translated
                          ++ speaking_events tgt_lang translated in
        match gtts w translated (tts_lang_code tgt_lang) with
        | Raise e => (Raise e, logged s h turn said)
        | Ok mp3_path =>
            (Ok tt, logged s h turn (said ++ [st_audio mp3_path "audio/mp3"]))
        end
    end.
Proof.
  intros [src_name Hsrc] [tgt_name Htgt] Hh asked. subst asked.
  unfold translate_and_speak, getitem, translate_text, text_to_speech,
    add_turn, get_history, set_history, call, emit.
  rewrite Hsrc, Htgt. tidy_state.
  rewrite (friendly_name _ _ Hsrc), (friendly_name _ _ Htgt).
  unfold mbind, M_bind, mret, M_ret. simpl.
  destruct (translator w src_lang tgt_lang recognized_text)
    as [translated|e]; [|by rewrite <- ?app_assoc].
  simpl. rewrite Hh. simpl.
  destruct (gtts w translated (tts_lang_code tgt_lang)) as [mp3_path|e];
    simpl; rewrite <- ?app_assoc; reflexivity.
Qed.

(** The same when the translation service raises: the history plays no
    part, it is not read before line 246. *)
Lemma translate_and_speak_failed
    (src_lang tgt_lang recognized_text detected_raw : string)
    (s : State) (e : Exn) :
  is_Some (LANG_FRIENDLY !! src_lang) →
  is_Some (LANG_FRIENDLY !! tgt_lang) →
  translator w src_lang tgt_lang recognized_text = Raise e →
  translate_and_speak w src_lang tgt_lang recognized_text detected_raw s
  = (Raise e,
     shown s (translating_events src_lang tgt_lang recognized_text)).
Proof.
  intros [src_name Hsrc] [tgt_name Htgt] Hfail.
  unfold translate_and_speak, getitem, translate_text, call, emit.
  rewrite Hsrc, Htgt. tidy_state.
  rewrite (friendly_name _ _ Hsrc), (friendly_name _ _ Htgt).
  unfold mbind, M_bind, mret, M_ret. simpl.
  rewrite Hfail. by rewrite <- ?app_assoc.
Qed.

Context (lang_a lang_b lang_a_name lang_b_name : string) (duration : Z).
Context (s : State) (audio_path : string) (res : gmap string string).

Hypothesis Hrec : sounddevice w (duration * 16000) 16000 = Ok audio_path.
Hypothesis Hwhisper : whisper w audio_path = Ok res.

Let recognized_text : string := Py.strip (Py.get res "text" "").
Let detected_raw : string := Py.get res "language" "".
Let detected_norm : string := normalize detected_raw.

(** The [try] block up to the direction decision, for speech that was
    recognised: the rest of the block runs from there, and the handler
    after it. *)
Lemma turn_run_recognized :
  recognized_text ≠ "" →
  turn w lang_a lang_b lang_a_name lang_b_name duration s
  = try_except
      ('(src_lang, tgt_lang) ←
         decide_direction lang_a lang_b lang_a_name lang_b_name
                          detected_norm;
       match src_lang, tgt_lang with
       | Some src_lang, Some tgt_lang =>
           if Py.truthy src_lang && Py.truthy tgt_lang then
             translate_and_speak w src_lang tgt_lang recognized_text
                                 detected_raw
           else mret tt
       | _, _ => mret tt
       end)
      (λ e, emit (reported e))
      (shown s (recording_events duration audio_path
                ++ recognized_events recognized_text detected_raw)).
Proof.
  intros Htext. apply (not_iff_compat (truthy_empty _)) in Htext.
  apply not_false_is_true in Htext.
  unfold turn, try_except, record_audio, transcribe_and_detect, call, emit.
  unfold mbind, M_bind, mret, M_ret. simpl.
  rewrite Hrec. simpl. rewrite Hwhisper. simpl.
  fold recognized_text detected_raw detected_norm. rewrite Htext. simpl.
  tidy_state. reflexivity.
Qed.

Lemma turn_run_no_speech :
  recognized_text = "" →
  turn w lang_a lang_b lang_a_name lang_b_name duration s
  = (Ok tt, shown s (recording_events duration audio_path
                     ++ [st_error
                           "Could not detect any speech. Please try again."])).
Proof.
  intros Htext. apply truthy_empty in Htext.
  unfold turn, try_except, record_audio, transcribe_and_detect, call, emit.
  unfold mbind, M_bind, mret, M_ret. simpl.
  rewrite Hrec. simpl. rewrite Hwhisper. simpl.
  fold recognized_text. rewrite Htext. simpl.
  tidy_state. reflexivity.
Qed.

(** C3. When the normalised tag is neither member of the pair, the turn
    ends without an exception and the history is what it was; if speech
    was recognised, the last output is the message that the language is
    outside the pair, and neither the translation service nor the speech
    synthesis is called. *)
Theorem rejected_turn_keeps_log :
  detected_norm ≠ lang_a →
  detected_norm ≠ lang_b →
  let final := turn w lang_a lang_b lang_a_name lang_b_name duration s in
  final.1 = Ok tt
  ∧ history final.2 = history s
  ∧ (recognized_text ≠ "" →
     final.2 = shown s (recording_events duration audio_path
                        ++ recognized_events recognized_text detected_raw
                        ++ [not_in_pair detected_norm lang_a_name
                                        lang_b_name])).
Proof.
  intros Ha Hb final. subst final.
  destruct (decide (recognized_text = "")) as [Htext|Htext].
  - by rewrite (turn_run_no_speech Htext).
  - rewrite (turn_run_recognized Htext).
    unfold try_except, decide_direction. rewrite run_bind.
    rewrite !bool_decide_eq_false_2 by done.
    split_and!; [done..|]. intros _. tidy_state. reflexivity.
Qed.

Section Direction.

Context (label src_lang tgt_lang : string).

Hypothesis Hpair : LANGUAGE_PAIRS !! label = Some (lang_a, lang_b).
Hypothesis Htext : recognized_text ≠ "".
Hypothesis Hdir :
  (src_lang, tgt_lang) = (lang_a, lang_b)
  ∨ (src_lang, tgt_lang) = (lang_b, lang_a).
Hypothesis Hdet : detected_norm = src_lang.

(** For a configured pair and a detected language that is one of its
    members, lines 236-252 run with that member as the source and the
    other member as the target. *)
Lemma turn_run_direction :
  is_Some (LANG_FRIENDLY !! src_lang)
  ∧ is_Some (LANG_FRIENDLY !! tgt_lang)
  ∧ turn w lang_a lang_b lang_a_name lang_b_name duration s
    = try_except
        (translate_and_speak w src_lang tgt_lang recognized_text
                             detected_raw)
        (λ e, emit (reported e))
        (shown s (recording_events duration audio_path
                  ++ recognized_events recognized_text detected_raw)).
Proof.
  destruct (configured_pair_names _ _ _ Hpair) as (Hab & Ha & Hb).
  assert (Py.truthy lang_a = true) as Hta.
  { destruct Ha as [name Ha]. by eapply friendly_key_truthy. }
  assert (Py.truthy lang_b = true) as Htb.
  { destruct Hb as [name Hb]. by eapply friendly_key_truthy. }
  rewrite (turn_run_recognized Htext).
  unfold try_except, decide_direction. rewrite run_bind.
  destruct Hdir as [[= -> ->]|[= -> ->]]; rewrite Hdet.
  - rewrite bool_decide_eq_true_2 by done. simpl. by rewrite Hta, Htb.
  - rewrite bool_decide_eq_false_2 by done.
    rewrite bool_decide_eq_true_2 by done. simpl. by rewrite Hta, Htb.
Qed.

(** C4. When the translation service raises, the turn ends with the
    handler's message and the history is what it was before the turn; when
    it returns, the history is the one before the turn followed by one new
    turn, whatever the speech synthesis does. The number of logged turns
    stays the same in the first case and grows by one in the second. *)
Theorem translation_failure_keeps_log :
  let final := turn w lang_a lang_b lang_a_name lang_b_name duration s in
  match translator w src_lang tgt_lang recognized_text with
  | Raise e =>
      final
      = (Ok tt,
         shown s (recording_events duration audio_path
                  ++ recognized_events recognized_text detected_raw
                  ++ translating_events src_lang tgt_lang recognized_text
                  ++ [reported e]))
      ∧ history final.2 = history s
      ∧ log_length final.2 = log_length s
  | Ok translated =>
      ∀ h : list Turn.t,
        history s = Some h →
        final.1 = Ok tt
        ∧ history final.2
          = Some (h ++ [Turn.mk (now w) src_lang tgt_lang recognized_text
                                translated detected_raw])
        ∧ log_length final.2 = S (log_length s)
  end.
Proof.
  intros final. subst final.
  destruct turn_run_direction as (Hsrc & Htgt & ->).
  unfold try_except.
  destruct (translator w src_lang tgt_lang recognized_text)
    as [translated|e] eqn:Htr.
  - intros h Hh.
    rewrite (translate_and_speak_run _ _ _ _ (shown s _) h Hsrc Htgt Hh).
    simpl.
    rewrite Htr. unfold log_length. rewrite Hh.
    destruct (gtts w translated (tts_lang_code tgt_lang)); simpl;
      by rewrite length_app, Nat.add_1_r.
  - rewrite (translate_and_speak_failed _ _ _ _ (shown s _) e Hsrc Htgt Htr).
    split_and!; [|done..]. tidy_state. reflexivity.
Qed.

(** C5. When the translation service returns and the speech synthesis
    raises, the turn ends with the handler's message; the history is the
    one before the turn followed by the new turn, with the translation in
    it; the translation has been shown, and no audio of it is played. *)
Theorem synthesis_failure_keeps_turn
    (translated : string) (e : Exn) (h : list Turn.t) :
  translator w src_lang tgt_lang recognized_text = Ok translated →
  gtts w translated (tts_lang_code tgt_lang) = Raise e →
  history s = Some h →
  turn w lang_a lang_b lang_a_name lang_b_name duration s
  = (Ok tt,
     logged s h (Turn.mk (now w) src_lang tgt_lang recognized_text
                         translated detected_raw)
       (recording_events duration audio_path
        ++ recognized_events recognized_text detected_raw
        ++ translating_events src_lang tgt_lang recognized_text
        ++ translated_events tgt_lang translated
        ++ speaking_events tgt_lang translated
        ++ [reported e])).
Proof.
  intros Htr Htts Hh.
  destruct turn_run_direction as (Hsrc & Htgt & ->).
  unfold try_except.
  rewrite (translate_and_speak_run _ _ _ _ (shown s _) h Hsrc Htgt Hh).
    simpl.
  rewrite Htr, Htts. tidy_state. reflexivity.
Qed.

(** The turn that succeeds to the end: the translation is also played. *)
Lemma turn_run_spoken (translated mp3_path : string) (h : list Turn.t) :
  translator w src_lang tgt_lang recognized_text = Ok translated →
  gtts w translated (tts_lang_code tgt_lang) = Ok mp3_path →
  history s = Some h →
  turn w lang_a lang_b lang_a_name lang_b_name duration s
  = (Ok tt,
     logged s h (Turn.mk (now w) src_lang tgt_lang recognized_text
                         translated detected_raw)
       (recording_events duration audio_path
        ++ recognized_events recognized_text detected_raw
        ++ translating_events src_lang tgt_lang recognized_text
        ++ translated_events tgt_lang translated
        ++ speaking_events tgt_lang translated
        ++ [st_audio mp3_path "audio/mp3"])).
Proof.
  intros Htr Htts Hh.
  destruct turn_run_direction as (Hsrc & Htgt & ->).
  unfold try_except.
  rewrite (translate_and_speak_run _ _ _ _ (shown s _) h Hsrc Htgt Hh).
    simpl.
  rewrite Htr, Htts. tidy_state. reflexivity.
Qed.

End Direction.

End One_turn.

(** A target outside the gTTS table does not reach the speech synthesis:
    the two tables have the same keys, and line 238 fails first. *)
Lemma translate_and_speak_unknown_target (w : World)
    (src_lang tgt_lang recognized_text detected_raw : string) (s : State) :
  is_Some (LANG_FRIENDLY !! src_lang) →
  GTTS_MAP !! tgt_lang = None →
  translate_and_speak w src_lang tgt_lang recognized_text detected_raw s
  = (Raise (KeyError tgt_lang), s).
Proof.
  intros [src_name Hsrc] Htts.
  assert (LANG_FRIENDLY !! tgt_lang = None) as Htgt.
  { revert Htts. unfold GTTS_MAP, LANG_FRIENDLY. by lookup_literal. }
  unfold translate_and_speak, getitem. rewrite Hsrc, Htgt. reflexivity.
Qed.

(** C10. The code given to the speech synthesis is the target code for
    both members of every configured pair, the gTTS table being the
    identity on its keys; a code that is not a key of the table gives
    ["en"]; and the speech synthesis is called with the translation and
    with this code. *)
Theorem tts_lang_code_spec :
  map_Forall (λ _ pair, tts_lang_code pair.1 = pair.1
                        ∧ tts_lang_code pair.2 = pair.2) LANGUAGE_PAIRS
  ∧ map_Forall (λ code tts, tts = code) GTTS_MAP
  ∧ (∀ tgt_lang : string,
       tts_lang_code tgt_lang
       = if bool_decide (is_Some (GTTS_MAP !! tgt_lang)) then tgt_lang
         else "en")
  ∧ ∀ (w : World) (src_lang tgt_lang recognized_text detected_raw : string)
      (s : State) (h : list Turn.t) (translated : string),
      is_Some (LANG_FRIENDLY !! src_lang) →
      is_Some (LANG_FRIENDLY !! tgt_lang) →
      history s = Some h →
      translator w src_lang tgt_lang recognized_text = Ok translated →
      trace (translate_and_speak w src_lang tgt_lang recognized_text
                                 detected_raw s).2
      = trace s
        ++ translating_events src_lang tgt_lang recognized_text
        ++ translated_events tgt_lang translated
        ++ [st_info "Generating voice output...";
            gTTS_save translated (tts_lang_code tgt_lang)]
        ++ match gtts w translated (tts_lang_code tgt_lang) with
           | Ok mp3_path => [st_audio mp3_path "audio/mp3"]
           | Raise _ => []
           end.
Proof.
  assert (Hid : map_Forall (λ code tts : string, tts = code) GTTS_MAP).
  { intros code tts. unfold GTTS_MAP. lookup_literal; congruence. }
  assert (Hget : ∀ tgt_lang : string,
             tts_lang_code tgt_lang
             = if bool_decide (is_Some (GTTS_MAP !! tgt_lang)) then tgt_lang
               else "en").
  { intros tgt_lang. unfold tts_lang_code, Py.get.
    destruct (GTTS_MAP !! tgt_lang) as [tts|] eqn:Htts.
    - rewrite bool_decide_eq_true_2 by eauto. simpl. by apply Hid in Htts.
    - rewrite bool_decide_eq_false_2; [done|]. by intros [? ?]. }
  split_and!; [|done..|].
  - intros label [a b] Hpair. apply configured_pair in Hpair as [-> Hb].
    simpl. split; [reflexivity|].
    revert Hb. rewrite !elem_of_cons, elem_of_nil.
    intros Hb. destruct_or!; by subst.
  - intros w src_lang tgt_lang recognized_text detected_raw s h translated
      Hsrc Htgt Hh Htr.
    rewrite (translate_and_speak_run _ _ _ _ _ _ h Hsrc Htgt Hh). simpl.
    rewrite Htr.
    destruct (gtts w translated (tts_lang_code tgt_lang)); tidy_state;
      reflexivity.
Qed.

(** ** The conversation log *)

Lemma render_turn_run (turn : Turn.t) (s : State) :
  render_turn turn s = (Ok tt, shown s (turn_events turn)).
Proof.
  unfold render_turn, emit, mbind, M_bind. tidy_state. reflexivity.
Qed.

Lemma render_history_run (s : State) :
  render_history s
  = (Ok tt,
     match history s with
     | Some (turn :: h) => shown s (history_events (turn :: h))
     | _ => s
     end).
Proof.
  unfold render_history, has_history, get_history.
  rewrite run_bind. destruct (history s) as [[|turn h]|] eqn:Hh.
  - rewrite bool_decide_eq_true_2 by eauto. simpl.
    rewrite run_bind, Hh. reflexivity.
  - rewrite bool_decide_eq_true_2 by eauto. simpl.
    rewrite run_bind, Hh. rewrite bool_decide_eq_false_2 by done.
    rewrite run_bind. unfold emit at 1.
    rewrite (run_for_each _ _ turn_events) by apply render_turn_run.
    unfold shown, history_events. simpl. by rewrite <- app_assoc.
  - rewrite bool_decide_eq_false_2; [done|]. by intros [? ?].
Qed.

Lemma render_history_turns (s : State) (h : list Turn.t) :
  history s = Some h →
  h ≠ [] →
  render_history s = (Ok tt, shown s (history_events h)).
Proof.
  intros Hh Hne. rewrite render_history_run, Hh. by destruct h.
Qed.

(** C6. For a history [h]: [add_turn] puts a turn after the turns of [h];
    [render_history] shows nothing when [h] is empty and otherwise the
    heading followed by the turns of [h] from the last one to the first
    one, so that three turns appended in the order [t1], [t2], [t3] are
    shown in the order [t3], [t2], [t1], before the older ones;
    [render_history] does not raise and leaves the history as it is. *)
Theorem render_history_newest_first (s : State) (h : list Turn.t) :
  history s = Some h →
  (∀ (w : World) (src_lang tgt_lang src_text tgt_text detected_raw : string),
     history (add_turn w src_lang tgt_lang src_text tgt_text detected_raw
                s).2
     = Some (h ++ [Turn.mk (now w) src_lang tgt_lang src_text tgt_text
                           detected_raw]))
  ∧ render_history s
    = (Ok tt,
       if bool_decide (h = []) then s
       else shown s (st_markdown "### 🕑 Conversation History"
                     :: concat (turn_events <$> reverse h)))
  ∧ (∀ (older : list Turn.t) (t1 t2 t3 : Turn.t),
       h = older ++ [t1; t2; t3] →
       trace (render_history s).2
       = trace s ++ st_markdown "### 🕑 Conversation History"
                 :: turn_events t3 ++ turn_events t2 ++ turn_events t1
                 ++ concat (turn_events <$> reverse older))
  ∧ history (render_history s).2 = Some h.
Proof.
  intros Hh. split_and!.
  - intros w *. by rewrite (add_turn_run _ _ _ _ _ _ _ h Hh).
  - rewrite render_history_run, Hh. by destruct h.
  - intros older t1 t2 t3 ->.
    rewrite (render_history_turns _ _ Hh) by (by destruct older).
    unfold history_events. rewrite reverse_app, fmap_app, concat_app.
    reflexivity.
  - rewrite render_history_run, Hh. by destruct h.
Qed.

(** Without the attribute, or with an empty history, nothing is shown. *)
Lemma render_history_nothing (s : State) :
  history s = None ∨ history s = Some [] →
  render_history s = (Ok tt, s).
Proof. intros [Hh|Hh]; by rewrite render_history_run, Hh. Qed.

(** One run of the page for a label of the select box, after
    [init_history] and the head of the page. *)
Lemma script_run (w : World) (ui : Widgets) (s : State)
    (lang_a lang_b : string) :
  LANGUAGE_PAIRS !! pair_label ui = Some (lang_a, lang_b) →
  script w ui s
  = ((if clear_history ui then clear_history_clicked else mret tt) ;;
     emit (st_markdown "---") ;;
     (if start ui
      then turn w lang_a lang_b (friendly lang_a) (friendly lang_b)
                (duration ui)
      else mret tt) ;;
     render_history)
      {| history := Some (default [] (history s));
         trace := trace s ++ page_events (friendly lang_a)
                                         (friendly lang_b) |}.
Proof.
  intros Hpair.
  destruct (configured_pair_names _ _ _ Hpair)
    as (_ & [name_a Ha] & [name_b Hb]).
  rewrite (friendly_name _ _ Ha), (friendly_name _ _ Hb).
  unfold script, init_history, has_history, set_history, getitem, emit.
  rewrite Hpair. unfold mbind, M_bind, mret, M_ret. simpl.
  rewrite Ha, Hb. unfold page_events.
  destruct (history s) as [h|] eqn:Hh.
  - rewrite bool_decide_eq_true_2 by eauto. simpl.
    rewrite Hh, <- ?app_assoc. reflexivity.
  - rewrite bool_decide_eq_false_2 by (by intros [? ?]). simpl.
    rewrite <- ?app_assoc. reflexivity.
Qed.

(** C7. The handler of the clear button leaves an empty history whatever
    the history was, and [render_history] then shows nothing; a run of the
    page with the clear button pressed ends with the empty history and
    with nothing after the confirmation and the rule below the buttons. *)
Theorem clear_history_empties (s : State) :
  let cleared := shown {| history := Some []; trace := trace s |}
                       [st_success "Conversation history cleared."] in
  clear_history_clicked s = (Ok tt, cleared)
  ∧ history cleared = Some []
  ∧ render_history cleared = (Ok tt, cleared)
  ∧ ∀ (w : World) (ui : Widgets),
      clear_history ui = true →
      start ui = false →
      match LANGUAGE_PAIRS !! pair_label ui with
      | Some (lang_a, lang_b) =>
          script w ui s
          = (Ok tt,
             {| history := Some [];
                trace := trace s
                         ++ page_events (friendly lang_a) (friendly lang_b)
                         ++ [st_success "Conversation history cleared.";
                             st_markdown "---"] |})
      | None => (script w ui s).1 = Raise (KeyError (pair_label ui))
      end.
Proof.
  intros cleared. split_and!; [done..|].
  intros w ui Hclear Hstart.
  destruct (LANGUAGE_PAIRS !! pair_label ui) as [[lang_a lang_b]|] eqn:Hpair.
  - rewrite (script_run _ _ _ _ _ Hpair), Hclear, Hstart.
    unfold clear_history_clicked, set_history, emit.
    rewrite !run_bind. simpl. rewrite render_history_run. simpl.
    by rewrite <- !app_assoc.
  - unfold script, init_history, has_history, set_history, getitem, emit.
    rewrite Hpair. unfold mbind, M_bind, mret, M_ret, raise. simpl.
    by destruct (bool_decide _).
Qed.

(** ** The statements on sample runs *)

Lemma decide_direction_three_way_witness :
  "en" ≠ "tl"
  ∧ decide_direction "en" "tl" "English" "Filipino" (normalize "fil") fresh
    = (Ok (Some "tl", Some "en"), fresh).
Proof.
  split; [done|].
  destruct (decide_direction_three_way "en" "tl" "English" "Filipino" "fil"
              fresh ltac:(done)) as [(Ha & _)|[(_ & _ & Hrun)|(_ & Hb & _)]];
    [done| |done].
  exact Hrun.
Defined.

Lemma rejected_turn_keeps_log_witness :
  sounddevice french_world (5 * 16000) 16000 = Ok "/tmp/tmp7q2m.wav"
  ∧ normalize "fr" ≠ "en"
  ∧ normalize "fr" ≠ "ar"
  ∧ turn french_world "en" "ar" "English" "Arabic" 5 fresh
    = (Ok tt,
       shown fresh
         (recording_events 5 "/tmp/tmp7q2m.wav"
          ++ recognized_events "Bonjour tout le monde." "fr"
          ++ [not_in_pair "fr" "English" "Arabic"])).
Proof.
  split_and!; [reflexivity|done..|].
  destruct (rejected_turn_keeps_log french_world "en" "ar" "English" "Arabic"
              5 fresh "/tmp/tmp7q2m.wav"
              (<["text" := " Bonjour tout le monde."]>
                 (<["language" := "fr"]> ∅)))
    as (Hok & _ & Hfinal); [reflexivity|reflexivity|done|done|].
  rewrite (surjective_pairing (turn _ _ _ _ _ _ _)).
  rewrite Hok, Hfinal; [reflexivity|done].
Defined.

Lemma translation_failure_keeps_log_witness :
  LANGUAGE_PAIRS !! "English ↔ Arabic" = Some ("en", "ar")
  ∧ translator offline_world "en" "ar" "Good morning."
    = Raise (ServiceError "Request exception")
  ∧ history (turn offline_world "en" "ar" "English" "Arabic" 5 three_turns).2
    = history three_turns
  ∧ translator hindi_world "hi" "en" "नमस्ते" = Ok "Hello"
  ∧ log_length (turn hindi_world "en" "hi" "English" "Hindi" 5 three_turns).2
    = 4.
Proof.
  split_and!; [reflexivity|reflexivity| |reflexivity|].
  - apply (translation_failure_keeps_log offline_world "en" "ar" "English"
             "Arabic" 5 three_turns "/tmp/tmp1c8d.wav"
             (<["text" := " Good morning."]> (<["language" := "en"]> ∅))
             eq_refl eq_refl "English ↔ Arabic" "en" "ar");
      [reflexivity|done|by left|reflexivity].
  - pose proof (translation_failure_keeps_log hindi_world "en" "hi" "English"
                  "Hindi" 5 three_turns "/tmp/tmp3k9x.wav"
                  (<["text" := " नमस्ते"]> (<["language" := "hi"]> ∅))
                  eq_refl eq_refl "English ↔ Hindi" "hi" "en"
                  eq_refl ltac:(done) (or_intror eq_refl) eq_refl) as Hrun.
    destruct (Hrun [hello_turn; thanks_turn; goodbye_turn] eq_refl)
      as (_ & _ & Hlen).
    exact Hlen.
Defined.

Lemma synthesis_failure_keeps_turn_witness :
  translator hindi_world "hi" "en" "नमस्ते" = Ok "Hello"
  ∧ gtts hindi_world "Hello" (tts_lang_code "en")
    = Raise (ServiceError "Failed to connect")
  ∧ history (turn hindi_world "en" "hi" "English" "Hindi" 5 fresh).2
    = Some [Turn.mk "10:15:00" "hi" "en" "नमस्ते" "Hello" "hi"].
Proof.
  split_and!; [reflexivity..|].
  rewrite (synthesis_failure_keeps_turn hindi_world "en" "hi" "English"
             "Hindi" 5 fresh "/tmp/tmp3k9x.wav"
             (<["text" := " नमस्ते"]> (<["language" := "hi"]> ∅))
             eq_refl eq_refl "English ↔ Hindi" "hi" "en"
             eq_refl ltac:(done) (or_intror eq_refl) eq_refl
             "Hello" (ServiceError "Failed to connect") []
             eq_refl eq_refl eq_refl).
  reflexivity.
Defined.

Lemma render_history_newest_first_witness :
  history three_turns = Some [hello_turn; thanks_turn; goodbye_turn]
  ∧ trace (render_history three_turns).2
    = st_markdown "### 🕑 Conversation History"
      :: turn_events goodbye_turn ++ turn_events thanks_turn
      ++ turn_events hello_turn
  ∧ history (render_history three_turns).2 = history three_turns.
Proof.
  destruct (render_history_newest_first three_turns
              [hello_turn; thanks_turn; goodbye_turn] eq_refl)
    as (_ & _ & Horder & Hsame).
  split_and!; [reflexivity| |exact Hsame].
  rewrite (Horder [] hello_turn thanks_turn goodbye_turn eq_refl).
  reflexivity.
Defined.

Lemma clear_history_empties_witness :
  clear_history (clear_pressed "English ↔ Sinhala") = true
  ∧ start (clear_pressed "English ↔ Sinhala") = false
  ∧ script hindi_world (clear_pressed "English ↔ Sinhala") three_turns
    = (Ok tt,
       {| history := Some [];
          trace := page_events "English" "Sinhala"
                   ++ [st_success "Conversation history cleared.";
                       st_markdown "---"] |}).
Proof.
  split_and!; [reflexivity..|].
  destruct (clear_history_empties three_turns) as (_ & _ & _ & Hscript).
  apply (Hscript hindi_world (clear_pressed "English ↔ Sinhala") eq_refl
           eq_refl).
Defined.

Lemma tts_lang_code_spec_witness :
  is_Some (LANG_FRIENDLY !! "tl")
  ∧ is_Some (LANG_FRIENDLY !! "en")
  ∧ translator filipino_world "tl" "en" "Kumusta ka?" = Ok "How are you?"
  ∧ tts_lang_code "en" = "en"
  ∧ trace (translate_and_speak filipino_world "tl" "en" "Kumusta ka?" "fil"
             fresh).2
    = translating_events "tl" "en" "Kumusta ka?"
      ++ translated_events "en" "How are you?"
      ++ [st_info "Generating voice output...";
          gTTS_save "How are you?" "en";
          st_audio "/tmp/tmp5v0z.mp3" "audio/mp3"].
Proof.
  destruct tts_lang_code_spec as (_ & _ & _ & Hcall).
  split_and!; [by eexists|by eexists|reflexivity|reflexivity|].
  rewrite (Hcall filipino_world "tl" "en" "Kumusta ka?" "fil" fresh []
             "How are you?" (mk_is_Some _ _ eq_refl)
             (mk_is_Some _ _ eq_refl) eq_refl eq_refl).
  reflexivity.
Defined.

(** ** Further sample runs *)

Example strip_spaces : Py.strip "  Hello world
 " = "Hello world".
Proof. reflexivity. Qed.

Example strip_wide_space : Py.strip "　नमस्ते " = "नमस्ते".
Proof. reflexivity. Qed.

Example strip_blank : Py.strip "  	 " = "".
Proof. reflexivity. Qed.

Example strip_inner : Py.strip "a b" = "a b".
Proof. reflexivity. Qed.

(** Hindi spoken in the pair English-Hindi: the turn is logged from Hindi
    to English and shown by [render_history] in the same run, although the
    speech synthesis failed. *)
Example run_hindi :
  script hindi_world (start_pressed "English ↔ Hindi")
         {| history := None; trace := [] |}
  = (Ok tt,
     logged fresh []
       (Turn.mk "10:15:00" "hi" "en" "नमस्ते" "Hello" "hi")
       (page_events "English" "Hindi"
        ++ [st_markdown "---"]
        ++ recording_events 5 "/tmp/tmp3k9x.wav"
        ++ recognized_events "नमस्ते" "hi"
        ++ translating_events "hi" "en" "नमस्ते"
        ++ translated_events "en" "Hello"
        ++ speaking_events "en" "Hello"
        ++ [reported (ServiceError "Failed to connect")]
        ++ history_events
             [Turn.mk "10:15:00" "hi" "en" "नमस्ते" "Hello" "hi"])).
Proof. vm_compute. reflexivity. Qed.

(** French spoken in the pair English-Arabic: nothing is logged. *)
Example run_french :
  history (script french_world (start_pressed "English ↔ Arabic") fresh).2
  = Some []
  ∧ last (trace (script french_world (start_pressed "English ↔ Arabic")
                        fresh).2)
    = Some (not_in_pair "fr" "English" "Arabic").
Proof. split; vm_compute; reflexivity. Qed.

(** Filipino tagged [fil] in the pair English-Filipino: the direction is
    from [tl] to [en]. *)
Example run_filipino :
  history (script filipino_world
                  (start_pressed "English ↔ Filipino (Tagalog)") fresh).2
  = Some [Turn.mk "10:18:00" "tl" "en" "Kumusta ka?" "How are you?" "fil"].
Proof. vm_compute. reflexivity. Qed.

(** * Further properties of the page *)

(** ** Failures before the direction is decided *)

(** X1. When the sound device raises, the turn ends with the handler's
    message right after the call of the device: Whisper, the translation
    service and the speech synthesis are not called, and the history is
    what it was. *)
Theorem recording_failure_is_reported (w : World)
    (lang_a lang_b lang_a_name lang_b_name : string) (duration : Z)
    (s : State) (e : Exn) :
  sounddevice w (duration * 16000) 16000 = Raise e →
  turn w lang_a lang_b lang_a_name lang_b_name duration s
  = (Ok tt,
     shown s [ st_info ("Recording for " +:+ pretty duration
                        +:+ " seconds… Please speak.");
               sd_rec (duration * 16000) 16000;
               reported e ]).
Proof.
  intros Hrec.
  unfold turn, try_except, record_audio, call, emit.
  unfold mbind, M_bind. simpl. rewrite Hrec. tidy_state. reflexivity.
Qed.

(** X2. When Whisper raises on the recording, the turn ends with the
    handler's message right after the call of the model: nothing is shown
    as recognised, no direction is decided, no other service is called,
    and the history is what it was. *)
Theorem transcription_failure_is_reported (w : World)
    (lang_a lang_b lang_a_name lang_b_name : string) (duration : Z)
    (s : State) (audio_path : string) (e : Exn) :
  sounddevice w (duration * 16000) 16000 = Ok audio_path →
  whisper w audio_path = Raise e →
  turn w lang_a lang_b lang_a_name lang_b_name duration s
  = (Ok tt, shown s (recording_events duration audio_path ++ [reported e])).
Proof.
  intros Hrec Hwhisper.
  unfold turn, try_except, record_audio, transcribe_and_detect, call, emit.
  unfold mbind, M_bind. simpl. rewrite Hrec. simpl. rewrite Hwhisper.
  tidy_state. reflexivity.
Qed.

(** X3. When Whisper's result has no text, or text that is blank after
    [strip], the turn ends with the no-speech message whatever the pair
    and whatever the detected language: no direction is decided, not even
    a language outside the pair is reported, and nothing is logged. *)
Theorem no_speech_is_reported (w : World)
    (lang_a lang_b lang_a_name lang_b_name : string) (duration : Z)
    (s : State) (audio_path : string) (res : gmap string string) :
  sounddevice w (duration * 16000) 16000 = Ok audio_path →
  whisper w audio_path = Ok res →
  res !! "text" = None ∨ Py.strip (Py.get res "text" "") = "" →
  turn w lang_a lang_b lang_a_name lang_b_name duration s
  = (Ok tt,
     shown s (recording_events duration audio_path
              ++ [st_error
                    "Could not detect any speech. Please try again."])).
Proof.
  intros Hrec Hwhisper Htext.
  apply (turn_run_no_speech w _ _ _ _ _ _ _ res Hrec Hwhisper).
  destruct Htext as [Hnone|Hblank]; [|done].
  unfold Py.get. by rewrite Hnone.
Qed.

(** ** The ways a turn can end *)

Lemma truthy_false (code : string) : Py.truthy code = false ↔ code = "".
Proof. by destruct code. Qed.

Lemma truthy_true (code : string) : Py.truthy code = true ↔ code ≠ "".
Proof. by destruct code. Qed.

(** Lines 235-252 and the handler, from the state in which the direction
    has been decided. *)
Lemma directed_ends (w : World) (duration : Z) (s : State)
    (audio_path recognized_text detected_raw src_lang tgt_lang : string) :
  ∃ s' : State,
    try_except
      (if Py.truthy src_lang && Py.truthy tgt_lang
       then translate_and_speak w src_lang tgt_lang recognized_text
                                detected_raw
       else mret tt)
      (λ e, emit (reported e))
      (shown s (recording_events duration audio_path
                ++ recognized_events recognized_text detected_raw))
    = (Ok tt, s')
    ∧ directed_end w duration s audio_path recognized_text detected_raw
                   src_lang tgt_lang s'.
Proof.
  destruct (Py.truthy src_lang) eqn:Hsrc; simpl;
    [|apply truthy_false in Hsrc; eexists; split; [reflexivity|];
      apply end_skipped; by left].
  destruct (Py.truthy tgt_lang) eqn:Htgt; simpl;
    [|apply truthy_false in Htgt; eexists; split; [reflexivity|];
      apply end_skipped; by right].
  apply truthy_true in Hsrc, Htgt. unfold try_except.
  destruct (LANG_FRIENDLY !! src_lang) as [src_name|] eqn:Hsrc_name.
  2:{ unfold translate_and_speak, getitem. rewrite Hsrc_name.
      eexists; split; [tidy_state; reflexivity|].
      by apply (end_unnamed _ _ _ _ _ _ _ _ src_lang); [..|left]. }
  destruct (LANG_FRIENDLY !! tgt_lang) as [tgt_name|] eqn:Htgt_name.
  2:{ unfold translate_and_speak, getitem. rewrite Hsrc_name, Htgt_name.
      eexists; split; [tidy_state; reflexivity|].
      by apply (end_unnamed _ _ _ _ _ _ _ _ tgt_lang); [..|right]. }
  assert (is_Some (LANG_FRIENDLY !! src_lang)) as Hsrc_some by eauto.
  assert (is_Some (LANG_FRIENDLY !! tgt_lang)) as Htgt_some by eauto.
  destruct (translator w src_lang tgt_lang recognized_text)
    as [translated|e] eqn:Htr.
  2:{ rewrite (translate_and_speak_failed _ _ _ _ _ (shown s _) e
                 Hsrc_some Htgt_some Htr).
      eexists; split; [tidy_state; reflexivity|].
      by apply end_untranslated. }
  destruct (history s) as [h|] eqn:Hh.
  - rewrite (translate_and_speak_run _ _ _ _ _ (shown s _) h
               Hsrc_some Htgt_some Hh). simpl. rewrite Htr.
    destruct (gtts w translated (tts_lang_code tgt_lang))
      as [mp3_path|e] eqn:Htts.
    + eexists; split; [tidy_state; reflexivity|].
      by apply end_spoken.
    + eexists; split; [tidy_state; reflexivity|].
      by apply end_unspoken.
  - unfold translate_and_speak, getitem, translate_text, add_turn,
      get_history, call, emit.
    rewrite Hsrc_name, Htgt_name. unfold mbind, M_bind, mret, M_ret. simpl.
    rewrite Htr. simpl. rewrite Hh.
    rewrite <- (friendly_name _ _ Hsrc_name), <- (friendly_name _ _ Htgt_name).
    eexists; split; [tidy_state; reflexivity|].
    rewrite <- Hh. by apply end_no_history.
Qed.

(** The [try] block and its handler end in one of the ways of
    [turn_end], whatever the services do. *)
Lemma turn_ends (w : World) (lang_a lang_b lang_a_name lang_b_name : string)
    (duration : Z) (s : State) :
  ∃ s' : State,
    turn w lang_a lang_b lang_a_name lang_b_name duration s = (Ok tt, s')
    ∧ turn_end w lang_a lang_b lang_a_name lang_b_name duration s s'.
Proof.
  destruct (sounddevice w (duration * 16000) 16000)
    as [audio_path|e] eqn:Hrec.
  2:{ eexists; split; [|by apply end_no_recording].
      unfold turn, try_except, record_audio, call, emit.
      unfold mbind, M_bind. simpl. rewrite Hrec. tidy_state. reflexivity. }
  destruct (whisper w audio_path) as [res|e] eqn:Hwhisper.
  2:{ eexists; split; [|by eapply end_no_transcript].
      unfold turn, try_except, record_audio, transcribe_and_detect, call,
        emit.
      unfold mbind, M_bind. simpl. rewrite Hrec. simpl. rewrite Hwhisper.
      tidy_state. reflexivity. }
  destruct (decide (Py.strip (Py.get res "text" "") = "")) as [Htext|Htext].
  { eexists; split; [by eapply turn_run_no_speech|].
    eapply end_heard; [done..|]. by apply end_no_speech. }
  rewrite (turn_run_recognized w _ _ _ _ _ _ _ res Hrec Hwhisper Htext).
  set (detected_norm := normalize (Py.get res "language" "")).
  destruct (decide (detected_norm = lang_a)) as [Ha|Ha].
  { destruct (directed_ends w duration s audio_path
                (Py.strip (Py.get res "text" "")) (Py.get res "language" "")
                lang_a lang_b) as (s' & Hrun & Hend).
    exists s'. split.
    - rewrite <- Hrun. unfold try_except, decide_direction.
      rewrite run_bind. by rewrite bool_decide_eq_true_2.
    - eapply end_heard; [done..|]. by eapply end_directed; [..|left|]. }
  destruct (decide (detected_norm = lang_b)) as [Hb|Hb].
  { destruct (directed_ends w duration s audio_path
                (Py.strip (Py.get res "text" "")) (Py.get res "language" "")
                lang_b lang_a) as (s' & Hrun & Hend).
    exists s'. split.
    - rewrite <- Hrun. unfold try_except, decide_direction.
      rewrite run_bind. rewrite bool_decide_eq_false_2 by done.
      by rewrite bool_decide_eq_true_2.
    - eapply end_heard; [done..|]. by eapply end_directed; [..|right|]. }
  eexists; split; [|eapply end_heard; [done..|]; by apply end_rejected].
  unfold try_except, decide_direction. rewrite run_bind.
  rewrite !bool_decide_eq_false_2 by done. tidy_state. reflexivity.
Qed.

(** ** What one turn can do to the log *)

(** X4. Whatever the services return or raise and whatever the pair, the
    [try] block with its handler does not raise, and the history after it
    is the history before it, or the history before it followed by one
    turn. That turn carries the clock's time; its source and target are
    the two members of the pair, in one order or the other; its source is
    the normalised form of its raw tag; its source text is not empty; its
    target text is what the translation service returned for them; and
    both codes have a display name. *)
Theorem turn_log_invariant (w : World)
    (lang_a lang_b lang_a_name lang_b_name : string) (duration : Z)
    (s : State) :
  let final := turn w lang_a lang_b lang_a_name lang_b_name duration s in
  final.1 = Ok tt
  ∧ (history final.2 = history s
     ∨ ∃ (h : list Turn.t) (t : Turn.t),
         history s = Some h
         ∧ history final.2 = Some (h ++ [t])
         ∧ Turn.time t = now w
         ∧ ((Turn.src_lang t, Turn.tgt_lang t) = (lang_a, lang_b)
            ∨ (Turn.src_lang t, Turn.tgt_lang t) = (lang_b, lang_a))
         ∧ normalize (Turn.detected_raw t) = Turn.src_lang t
         ∧ Turn.src_text t ≠ ""
         ∧ translator w (Turn.src_lang t) (Turn.tgt_lang t) (Turn.src_text t)
           = Ok (Turn.tgt_text t)
         ∧ is_Some (LANG_FRIENDLY !! Turn.src_lang t)
         ∧ is_Some (LANG_FRIENDLY !! Turn.tgt_lang t)).
Proof.
  intros final. subst final.
  destruct (turn_ends w lang_a lang_b lang_a_name lang_b_name duration s)
    as (s' & -> & Hend).
  split; [reflexivity|]. simpl.
  destruct Hend as [| |audio_path res s' Hrec Hwhisper Hheard];
    [by left..|].
  destruct Hheard as [| |src_lang tgt_lang s' Htext Hnorm Hdir Hdirected];
    [by left..|].
  destruct Hdirected; [by left..| |];
    right; eexists _, _; split_and!; done.
Qed.

(** ** What one turn asks of the services *)

Lemma new_events_shown (s : State) (events : list Event) :
  new_events s (shown s events) = events.
Proof. unfold new_events, shown. simpl. apply drop_app_length. Qed.

Lemma new_events_logged (s : State) (h : list Turn.t) (turn : Turn.t)
    (events : list Event) :
  new_events s (logged s h turn events) = events.
Proof. unfold new_events, logged. simpl. apply drop_app_length. Qed.

(** Membership in the output of a turn, stage by stage. *)
Ltac in_stages H :=
  rewrite ?new_events_shown, ?new_events_logged in H;
  apply list_elem_of_In in H;
  unfold recording_events, recognized_events, translating_events,
    translated_events, speaking_events, not_in_pair, reported in H;
  cbn beta iota delta [In app] in H;
  destruct_or? H; first [discriminate H|contradiction|simplify_eq].

(** X5. Whatever the services return or raise and whatever the pair: the
    translation service is only asked about text that is not empty, from
    one member of the pair to the other, neither being the empty code; the
    speech synthesis is only asked to speak a translation that the
    translation service has returned and that is by then the last turn of
    the history, in the gTTS code of that turn's target; and an mp3 is only
    played when the speech synthesis has returned it. *)
Theorem services_asked_in_order (w : World)
    (lang_a lang_b lang_a_name lang_b_name : string) (duration : Z)
    (s : State) :
  let final := (turn w lang_a lang_b lang_a_name lang_b_name duration s).2 in
  (∀ src_lang tgt_lang text : string,
     GoogleTranslator_translate src_lang tgt_lang text ∈ new_events s final →
     text ≠ ""
     ∧ ((src_lang, tgt_lang) = (lang_a, lang_b)
        ∨ (src_lang, tgt_lang) = (lang_b, lang_a))
     ∧ src_lang ≠ "" ∧ tgt_lang ≠ "")
  ∧ (∀ text lang : string,
       gTTS_save text lang ∈ new_events s final →
       ∃ (h : list Turn.t) (src_lang tgt_lang src_text detected_raw : string),
         history s = Some h
         ∧ history final
           = Some (h ++ [Turn.mk (now w) src_lang tgt_lang src_text text
                                 detected_raw])
         ∧ lang = tts_lang_code tgt_lang
         ∧ translator w src_lang tgt_lang src_text = Ok text)
  ∧ (∀ mp3_path : string,
       st_audio mp3_path "audio/mp3" ∈ new_events s final →
       ∃ text lang : string,
         gTTS_save text lang ∈ new_events s final
         ∧ gtts w text lang = Ok mp3_path).
Proof.
  intros final. subst final.
  destruct (turn_ends w lang_a lang_b lang_a_name lang_b_name duration s)
    as (s' & -> & Hend). simpl.
  split_and!.
  - intros src tgt text Hin.
    destruct Hend as [| |audio_path res s' Hrec Hwhisper Hheard];
      [in_stages Hin; done..|].
    destruct Hheard as [| |src_lang tgt_lang s' Htext Hnorm Hdir Hdirected];
      [in_stages Hin; done..|].
    destruct Hdirected; in_stages Hin. all: by subst.
  - intros text lang Hin.
    destruct Hend as [| |audio_path res s' Hrec Hwhisper Hheard];
      [in_stages Hin; done..|].
    destruct Hheard as [| |src_lang tgt_lang s' Htext Hnorm Hdir Hdirected];
      [in_stages Hin; done..|].
    destruct Hdirected; in_stages Hin; by eexists _, _, _, _, _.
  - intros mp3_path Hin.
    destruct Hend as [| |audio_path res s' Hrec Hwhisper Hheard];
      [in_stages Hin; done..|].
    destruct Hheard as [| |src_lang tgt_lang s' Htext Hnorm Hdir Hdirected];
      [in_stages Hin; done..|].
    destruct Hdirected; in_stages Hin.
    eexists _, _. split; [|done].
    rewrite new_events_logged. apply list_elem_of_In.
    unfold speaking_events. rewrite !in_app_iff. simpl. tauto.
Qed.

(** ** Tags and pairs *)




(** ** One run of the page *)

(** A turn adds output and leaves the history or appends one turn. *)
Lemma turn_run_summary (w : World)
    (lang_a lang_b lang_a_name lang_b_name : string) (duration : Z)
    (s : State) :
  ∃ events : list Event,
    turn w lang_a lang_b lang_a_name lang_b_name duration s
    = (Ok tt, shown s events)
    ∨ ∃ (h : list Turn.t) (t : Turn.t),
        history s = Some h
        ∧ turn w lang_a lang_b lang_a_name lang_b_name duration s
          = (Ok tt, logged s h t events).
Proof.
  destruct (turn_ends w lang_a lang_b lang_a_name lang_b_name duration s)
    as (s' & -> & Hend).
  destruct Hend as [| |audio_path res s' Hrec Hwhisper Hheard];
    [by eexists; left..|].
  destruct Hheard as [| |src_lang tgt_lang s' Htext Hnorm Hdir Hdirected];
    [by eexists; left..|].
  destruct Hdirected; [by eexists; left..| |];
    eexists; right; by eexists _, _.
Qed.

Lemma render_history_log (s : State) :
  render_history s = (Ok tt, shown s (log_events s)).
Proof.
  rewrite render_history_run. unfold log_events, shown.
  destruct s as [[[|turn h]|] events]; simpl; by rewrite ?app_nil_r.
Qed.

(** A run of the page for a label of the select box: it does not raise,
    the history after it is the one before it, emptied first if the clear
    button was pressed, with at most one turn more, and the run ends by
    showing that history. *)
Lemma script_run_summary (w : World) (ui : Widgets) (s : State)
    (lang_a lang_b : string) :
  LANGUAGE_PAIRS !! pair_label ui = Some (lang_a, lang_b) →
  let before := if clear_history ui then [] else default [] (history s) in
  ∃ (h : list Turn.t) (events : list Event),
    (h = before ∨ start ui = true ∧ ∃ t : Turn.t, h = before ++ [t])
    ∧ script w ui s
      = (Ok tt,
         {| history := Some h;
            trace := trace s ++ events
                     ++ log_events {| history := Some h; trace := [] |} |}).
Proof.
  intros Hpair before. rewrite (script_run _ _ _ _ _ Hpair).
  set (s0 := {| history := Some (default [] (history s)); trace := _ |}).
  assert (∃ (s1 : State) (events1 : list Event),
            (if clear_history ui then clear_history_clicked else mret tt) s0
            = (Ok tt, s1)
            ∧ history s1 = Some before
            ∧ trace s1 = trace s ++ events1)
    as (s1 & events1 & Hclear & Hh1 & Htrace1).
  { subst before. destruct (clear_history ui).
    - eexists _, _. split; [reflexivity|]. split; [reflexivity|].
      cbn [trace s0]. by rewrite <- app_assoc.
    - eexists _, _. split; [reflexivity|]. split; reflexivity. }
  rewrite run_bind, Hclear. rewrite run_bind. unfold emit at 1.
  set (s2 := {| history := history s1; trace := trace s1 ++ _ |}).
  rewrite run_bind.
  destruct (start ui) eqn:Hstart.
  - destruct (turn_run_summary w lang_a lang_b (friendly lang_a)
                (friendly lang_b) (duration ui) s2)
      as (events2 & [->|(h2 & t & Hh2 & ->)]).
    + rewrite render_history_log.
      exists before, (events1 ++ [st_markdown "---"] ++ events2).
      split; [by left|]. unfold shown, log_events. cbn [history trace s2].
      rewrite Hh1, Htrace1, <- !app_assoc. reflexivity.
    + rewrite render_history_log.
      exists (before ++ [t]), (events1 ++ [st_markdown "---"] ++ events2).
      split; [right; eauto|]. unfold shown, logged, log_events.
      cbn [history trace s2] in *. rewrite Hh1 in Hh2. injection Hh2 as <-.
      rewrite Htrace1, <- !app_assoc. reflexivity.
  - unfold mret, M_ret. rewrite render_history_log.
    exists before, (events1 ++ [st_markdown "---"]).
    split; [by left|]. unfold shown, log_events. cbn [history trace s2].
    rewrite Hh1, Htrace1, <- !app_assoc. reflexivity.
Qed.

(** X7. A run of the page for a label of the select box does not raise,
    whatever the buttons and whatever the services do. The history after
    it is the history before it (the empty one if there was none, or if the
    clear button was pressed), or that history followed by one turn, and
    the latter only when the start button was pressed. The last thing the
    run shows is the history as it then is. *)
Theorem page_run_keeps_the_log (w : World) (ui : Widgets) (s : State)
    (lang_a lang_b : string) :
  LANGUAGE_PAIRS !! pair_label ui = Some (lang_a, lang_b) →
  let final := script w ui s in
  let before := if clear_history ui then [] else default [] (history s) in
  final.1 = Ok tt
  ∧ (history final.2 = Some before
     ∨ start ui = true
       ∧ ∃ t : Turn.t, history final.2 = Some (before ++ [t]))
  ∧ ∃ events : list Event,
      trace final.2 = trace s ++ events ++ log_events final.2.
Proof.
  intros Hpair final before. subst final.
  destruct (script_run_summary w ui s lang_a lang_b Hpair)
    as (h & events & Hh & ->).
  split_and!; [reflexivity| |by exists events].
  destruct Hh as [->|(Hstart & t & ->)]; [by left|right; eauto].
Qed.

(** X8. A run of the page in which neither button was pressed, as after
    moving the slider or choosing another pair, calls no service: whatever
    the services would do, it shows the head of the page and the history,
    and leaves the history as it was, creating the empty one if there was
    none. *)
Theorem idle_run_shows_the_log (w : World) (ui : Widgets) (s : State)
    (lang_a lang_b : string) :
  LANGUAGE_PAIRS !! pair_label ui = Some (lang_a, lang_b) →
  start ui = false →
  clear_history ui = false →
  let h := default [] (history s) in
  script w ui s
  = (Ok tt,
     {| history := Some h;
        trace := trace s
                 ++ page_events (friendly lang_a) (friendly lang_b)
                 ++ [st_markdown "---"]
                 ++ (if bool_decide (h = []) then [] else history_events h)
     |}).
Proof.
  intros Hpair Hstart Hclear h.
  rewrite (script_run _ _ _ _ _ Hpair), Hstart, Hclear.
  unfold mret, M_ret, emit. rewrite !run_bind, render_history_log.
  unfold shown, log_events. cbn [history trace].
  rewrite <- !app_assoc. fold h. by destruct h.
Qed.

(** ** A session *)

Lemma starts_cons (run : World * Widgets) (runs : list (World * Widgets)) :
  starts (run :: runs) = (if start run.2 then 1 else 0) + starts runs.
Proof.
  unfold starts. destruct (start run.2) eqn:Hstart.
  - by rewrite filter_cons_True.
  - rewrite filter_cons_False; [done|]. by rewrite Hstart.
Qed.

(** X9. Over any number of runs of the page with labels of the select
    box in which the clear button is never pressed, no run raises and the
    history only grows at its end: the turns logged before the session are
    still there, in their order, followed by the added ones, and there are
    at most as many added ones as runs started by the start button. *)
Theorem session_log_is_append_only (runs : list (World * Widgets))
    (s : State) :
  Forall (λ run, is_Some (LANGUAGE_PAIRS !! pair_label run.2)
                 ∧ clear_history run.2 = false) runs →
  (session runs s).1 = Ok tt
  ∧ ∃ added : list Turn.t,
      default [] (history (session runs s).2)
      = default [] (history s) ++ added
      ∧ length added ≤ starts runs.
Proof.
  intros Hruns. revert s.
  induction Hruns as [|[w ui] runs [[[lang_a lang_b] Hpair] Hclear] _ IH];
    intros s.
  - split; [reflexivity|]. exists []. by rewrite app_nil_r.
  - simpl in Hpair, Hclear. unfold session. simpl. rewrite run_bind.
    destruct (script_run_summary w ui s lang_a lang_b Hpair)
      as (h & events & Hh & ->).
    rewrite Hclear in Hh.
    set (s1 := {| history := Some h; trace := _ |}).
    destruct (IH s1) as (Hok & added & Hadded & Hlen).
    split; [exact Hok|]. rewrite starts_cons. simpl.
    destruct Hh as [Hh|(Hstart & t & Hh)].
    + exists added. split; [|lia].
      unfold session in Hadded. rewrite Hadded. simpl. by rewrite Hh.
    + exists (t :: added). split; [|rewrite Hstart; simpl; lia].
      unfold session in Hadded. rewrite Hadded. simpl.
      by rewrite Hh, <- app_assoc.
Qed.

(** ** A run that succeeds to the end *)

Lemma log_events_logged (s : State) (h : list Turn.t) (t : Turn.t)
    (events : list Event) :
  log_events (logged s h t events)
  = st_markdown "### 🕑 Conversation History"
    :: turn_events t ++ concat (turn_events <$> reverse h).
Proof.
  unfold log_events, logged, history_events. cbn [history].
  destruct (h ++ [t]) as [|t0 h0] eqn:Hne; [by destruct h|].
  rewrite <- Hne, reverse_app, fmap_app, concat_app. reflexivity.
Qed.

(** X10. A run of the page started by the start button, in a configured
    pair, in which a member of the pair is detected and both the
    translation service and the speech synthesis answer: the new turn is
    logged after the earlier ones, the translation is shown and played, and
    the history shown at the end of the same run has the new turn first,
    before the earlier ones from the latest to the oldest. *)
Theorem spoken_run_shows_new_turn_first (w : World) (ui : Widgets)
    (s : State) (lang_a lang_b audio_path : string)
    (res : gmap string string) (src_lang tgt_lang translated mp3_path : string) :
  let recognized_text := Py.strip (Py.get res "text" "") in
  let detected_raw := Py.get res "language" "" in
  let h := default [] (history s) in
  let t := Turn.mk (now w) src_lang tgt_lang recognized_text translated
                   detected_raw in
  LANGUAGE_PAIRS !! pair_label ui = Some (lang_a, lang_b) →
  start ui = true →
  clear_history ui = false →
  sounddevice w (duration ui * 16000) 16000 = Ok audio_path →
  whisper w audio_path = Ok res →
  recognized_text ≠ "" →
  (src_lang, tgt_lang) = (lang_a, lang_b)
  ∨ (src_lang, tgt_lang) = (lang_b, lang_a) →
  normalize detected_raw = src_lang →
  translator w src_lang tgt_lang recognized_text = Ok translated →
  gtts w translated (tts_lang_code tgt_lang) = Ok mp3_path →
  script w ui s
  = (Ok tt,
     {| history := Some (h ++ [t]);
        trace := trace s
                 ++ page_events (friendly lang_a) (friendly lang_b)
                 ++ [st_markdown "---"]
                 ++ recording_events (duration ui) audio_path
                 ++ recognized_events recognized_text detected_raw
                 ++ translating_events src_lang tgt_lang recognized_text
                 ++ translated_events tgt_lang translated
                 ++ speaking_events tgt_lang translated
                 ++ [st_audio mp3_path "audio/mp3"]
                 ++ st_markdown "### 🕑 Conversation History"
                    :: turn_events t
                    ++ concat (turn_events <$> reverse h) |}).
Proof.
  intros recognized_text detected_raw h t Hpair Hstart Hclear Hrec Hwhisper
    Htext Hdir Hnorm Htr Htts.
  rewrite (script_run _ _ _ _ _ Hpair), Hstart, Hclear.
  unfold mret, M_ret, emit. rewrite !run_bind. cbn [history trace].
  match goal with
  | |- context [turn _ _ _ _ _ _ ?s2] =>
      rewrite (turn_run_spoken w lang_a lang_b _ _ (duration ui) s2
                 audio_path res Hrec Hwhisper (pair_label ui) src_lang
                 tgt_lang Hpair Htext Hdir Hnorm translated mp3_path h Htr
                 Htts eq_refl)
  end.
  rewrite render_history_log.
  rewrite log_events_logged.
  unfold shown, logged. cbn [history trace].
  rewrite <- !app_assoc. reflexivity.
Qed.

(** ** The further properties on sample runs *)

Lemma recording_failure_is_reported_witness :
  sounddevice no_microphone_world (5 * 16000) 16000
  = Raise (ServiceError "Error querying device -1")
  ∧ turn no_microphone_world "en" "hi" "English" "Hindi" 5 three_turns
    = (Ok tt,
       shown three_turns
         [ st_info "Recording for 5 seconds… Please speak.";
           sd_rec 80000 16000;
           st_error "Error: Error querying device -1" ]).
Proof.
  split; [reflexivity|].
  apply (recording_failure_is_reported no_microphone_world "en" "hi"
           "English" "Hindi" 5 three_turns
           (ServiceError "Error querying device -1") eq_refl).
Defined.

Lemma transcription_failure_is_reported_witness :
  sounddevice no_model_world (5 * 16000) 16000 = Ok "/tmp/tmp9h4b.wav"
  ∧ whisper no_model_world "/tmp/tmp9h4b.wav"
    = Raise (ServiceError "Failed to load audio")
  ∧ turn no_model_world "en" "hi" "English" "Hindi" 5 three_turns
    = (Ok tt,
       shown three_turns
         (recording_events 5 "/tmp/tmp9h4b.wav"
          ++ [st_error "Error: Failed to load audio"])).
Proof.
  split_and!; [reflexivity..|].
  apply (transcription_failure_is_reported no_model_world "en" "hi"
           "English" "Hindi" 5 three_turns "/tmp/tmp9h4b.wav"
           (ServiceError "Failed to load audio") eq_refl eq_refl).
Defined.

Lemma no_speech_is_reported_witness :
  sounddevice silent_world (5 * 16000) 16000 = Ok "/tmp/tmp2r6e.wav"
  ∧ Py.strip "  " = ""
  ∧ turn silent_world "en" "hi" "English" "Hindi" 5 three_turns
    = (Ok tt,
       shown three_turns
         (recording_events 5 "/tmp/tmp2r6e.wav"
          ++ [st_error "Could not detect any speech. Please try again."])).
Proof.
  split_and!; [reflexivity..|].
  apply (no_speech_is_reported silent_world "en" "hi" "English" "Hindi" 5
           three_turns "/tmp/tmp2r6e.wav"
           (<["text" := "  "]> (<["language" := "en"]> ∅))
           eq_refl eq_refl (or_intror eq_refl)).
Defined.

Lemma services_asked_in_order_witness :
  GoogleTranslator_translate "hi" "en" "नमस्ते"
  ∈ new_events fresh (turn hindi_world "en" "hi" "English" "Hindi" 5 fresh).2
  ∧ (("hi", "en") = ("en", "hi") ∨ ("hi", "en") = ("hi", "en")).
Proof.
  assert (GoogleTranslator_translate "hi" "en" "नमस्ते"
          ∈ new_events fresh
              (turn hindi_world "en" "hi" "English" "Hindi" 5 fresh).2)
    as Hin.
  { apply list_elem_of_In. vm_compute. tauto. }
  split; [exact Hin|].
  destruct (services_asked_in_order hindi_world "en" "hi" "English" "Hindi"
              5 fresh) as (Hasked & _ & _).
  destruct (Hasked "hi" "en" "नमस्ते" Hin) as (_ & Hdir & _).
  exact Hdir.
Defined.

Lemma page_run_keeps_the_log_witness :
  LANGUAGE_PAIRS !! "English ↔ Hindi" = Some ("en", "hi")
  ∧ (script hindi_world (start_pressed "English ↔ Hindi") three_turns).1
    = Ok tt.
Proof.
  split; [reflexivity|].
  apply (page_run_keeps_the_log hindi_world
           (start_pressed "English ↔ Hindi") three_turns "en" "hi" eq_refl).
Defined.

Lemma idle_run_shows_the_log_witness :
  LANGUAGE_PAIRS !! "English ↔ Hindi" = Some ("en", "hi")
  ∧ script offline_world (idle "English ↔ Hindi") three_turns
    = (Ok tt,
       shown three_turns
         (page_events "English" "Hindi"
          ++ [st_markdown "---"]
          ++ history_events [hello_turn; thanks_turn; goodbye_turn])).
Proof.
  split; [reflexivity|].
  apply (idle_run_shows_the_log offline_world (idle "English ↔ Hindi")
           three_turns "en" "hi" eq_refl eq_refl eq_refl).
Defined.

Lemma session_log_is_append_only_witness :
  Forall (λ run, is_Some (LANGUAGE_PAIRS !! pair_label run.2)
                 ∧ clear_history run.2 = false) conversation
  ∧ starts conversation = 3
  ∧ (session conversation three_turns).1 = Ok tt.
Proof.
  assert (Forall (λ run, is_Some (LANGUAGE_PAIRS !! pair_label run.2)
                         ∧ clear_history run.2 = false) conversation)
    as Hruns.
  { repeat constructor; by eexists. }
  split_and!; [exact Hruns|reflexivity|].
  apply (session_log_is_append_only conversation three_turns Hruns).
Defined.

Lemma spoken_run_shows_new_turn_first_witness :
  translator filipino_world "tl" "en" "Kumusta ka?" = Ok "How are you?"
  ∧ gtts filipino_world "How are you?" (tts_lang_code "en")
    = Ok "/tmp/tmp5v0z.mp3"
  ∧ history (script filipino_world
                    (start_pressed "English ↔ Filipino (Tagalog)")
                    three_turns).2
    = Some [hello_turn; thanks_turn; goodbye_turn;
            Turn.mk "10:18:00" "tl" "en" "Kumusta ka?" "How are you?" "fil"].
Proof.
  split_and!; [reflexivity..|].
  rewrite (spoken_run_shows_new_turn_first filipino_world
             (start_pressed "English ↔ Filipino (Tagalog)") three_turns
             "en" "tl" "/tmp/tmp5v0z.wav"
             (<["text" := " Kumusta ka? "]> (<["language" := "fil"]> ∅))
             "tl" "en" "How are you?" "/tmp/tmp5v0z.mp3"
             eq_refl eq_refl eq_refl eq_refl eq_refl ltac:(done)
             (or_intror eq_refl) eq_refl eq_refl eq_refl).
  reflexivity.
Defined.

(** The conversation of four runs, from a session without history: the
    rerun logs nothing, Hindi is logged twice and French is rejected. *)
Example run_conversation :
  history (session conversation {| history := None; trace := [] |}).2
  = Some [ Turn.mk "10:15:00" "hi" "en" "नमस्ते" "Hello" "hi";
           Turn.mk "10:15:00" "hi" "en" "नमस्ते" "Hello" "hi" ].
Proof. vm_compute. reflexivity. Qed.
